(** * Rockets: gravitation, scene state machines and landing evaluation

    A shallow embedding of the physics helper (utils/Physics.js), of the
    solar-system scene (class [Game] of main.js) and of the single-planet
    scene (scenes/PlanetScene.js) of the rocket game, together with the
    properties its design document states about them.  The rocket and
    planet classes (objects/Rocket.js, objects/Planet.js) are modelled from
    the design document where the scenes call into them.

    JavaScript numbers are IEEE 754 binary64 values; they are modelled by
    Rocq's primitive floats, so that [NaN], signed zeros, infinities and the
    comparison operators behave as they do in the program and every
    definition can be evaluated on concrete inputs.

    Layout: the embedding; the vocabulary of the properties and example
    scenarios; facts about binary64; then the properties, module by
    module. *)

From Stdlib Require Import Floats ZArith QArith Lqa.
From stdpp Require Import gmap strings list.

Set Warnings "-inexact-float".
Local Open Scope float_scope.

(** * JavaScript numbers *)

Module JS.

(** [a || b] on numbers: [a] is falsy when it is [0], [-0] or [NaN]. *)
Definition falsy (a : float) : bool := PrimFloat.eqb a 0 || PrimFloat.is_nan a.

Definition or (a b : float) : float := if falsy a then b else a.

Definition Infinity : float := infinity.

Definition NaN : float := nan.

End JS.

(** * The part of three.js [Vector3] the program uses

    three.js is a dependency of the program; the methods below follow its
    [Vector3] class.  The program's vectors are mutable objects; every
    vector the modelled functions mutate is freshly allocated by them, so
    values are enough. *)

Module THREE.

Record Vector3 : Set := mkVector3 { x : float; y : float; z : float }.

(** [new THREE.Vector3().subVectors(a, b)] *)
Definition subVectors (a b : Vector3) : Vector3 :=
  mkVector3 (x a - x b) (y a - y b) (z a - z b).

(** [a.add(b)] *)
Definition add (a b : Vector3) : Vector3 :=
  mkVector3 (x a + x b) (y a + y b) (z a + z b).

(** [v.multiplyScalar(s)] *)
Definition multiplyScalar (v : Vector3) (s : float) : Vector3 :=
  mkVector3 (x v * s) (y v * s) (z v * s).

(** [v.divideScalar(s)] is [v.multiplyScalar(1 / s)]. *)
Definition divideScalar (v : Vector3) (s : float) : Vector3 :=
  multiplyScalar v (1 / s).

(** [v.length()] *)
Definition length (v : Vector3) : float :=
  PrimFloat.sqrt (x v * x v + y v * y v + z v * z v).

(** [v.normalize()] is [v.divideScalar(v.length() || 1)]. *)
Definition normalize (v : Vector3) : Vector3 :=
  divideScalar v (JS.or (length v) 1).

(** [a.distanceToSquared(b)] *)
Definition distanceToSquared (a b : Vector3) : float :=
  let dx := x a - x b in
  let dy := y a - y b in
  let dz := z a - z b in
  dx * dx + dy * dy + dz * dz.

(** [a.distanceTo(b)] *)
Definition distanceTo (a b : Vector3) : float :=
  PrimFloat.sqrt (distanceToSquared a b).

(** [a.lerp(b, alpha)] *)
Definition lerp (a b : Vector3) (alpha : float) : Vector3 :=
  mkVector3 (x a + (x b - x a) * alpha)
            (y a + (y b - y a) * alpha)
            (z a + (z b - z a) * alpha).

Record Quaternion : Set :=
  mkQuaternion { qx : float; qy : float; qz : float; qw : float }.

(** [v.negate()] *)
Definition negate (v : Vector3) : Vector3 :=
  mkVector3 (- x v) (- y v) (- z v).

End THREE.

Import THREE.

(** * Values flowing out of [calculateGravityForce]

    The function returns a number on one path and a [Vector3] object on the
    other, so its result is a JavaScript value of either kind. *)

Inductive JsValue : Set :=
  | JsNumber (n : float)
  | JsObject (v : Vector3).

(** [ToNumber]: a number is itself; a [Vector3] has neither [valueOf] nor
    [toString] of its own, so it converts through ["[object Object]"] to
    [NaN]. *)
Definition ToNumber (v : JsValue) : float :=
  match v with
  | JsNumber n => n
  | JsObject _ => JS.NaN
  end.

(** The operator [a / b] with a JavaScript value on the left. *)
Definition js_div (a : JsValue) (b : float) : float := ToNumber a / b.

(** * utils/Physics.js *)

(** [applyGravity] reads [position] and [mass] from whatever objects it is
    given (the rocket and a planet). *)
Class Massive (A : Type) : Type := {
  position : A -> Vector3;
  mass : A -> float
}.

(** [updateVelocity] and [updatePosition] read and assign the components
    of [velocity] and [position] of whatever object they are given. *)
Class Kinematic (A : Type) `{Massive A} : Type := {
  velocity : A -> Vector3;
  set_velocity : Vector3 -> A -> A;
  set_position : Vector3 -> A -> A
}.

Module Physics.

(** [this.G = 0.1] *)
Definition G : float := 0.1.

Definition calculateGravityForce (mass1 mass2 distance : float) : JsValue :=
  if PrimFloat.eqb distance 0 then JsObject (mkVector3 0 0 0)
  else JsNumber ((G * mass1 * mass2) / (distance * distance)).

Definition applyGravity {A B : Type} `{Massive A} `{Massive B}
    (object : A) (planet : B) : Vector3 :=
  let direction := normalize (subVectors (position planet) (position object)) in
  let distance := distanceTo (position object) (position planet) in
  let force := calculateGravityForce (mass object) (mass planet) distance in
  multiplyScalar direction (js_div force (mass object)).

(** [checkCollision(object1, object2, radius1, radius2)] *)
Definition checkCollision {A B : Type} `{Massive A} `{Massive B}
    (object1 : A) (object2 : B) (radius1 radius2 : float) : bool :=
  let distance := distanceTo (position object1) (position object2) in
  distance <? (radius1 + radius2).

Definition updateVelocity {A : Type} `{Kinematic A}
    (object : A) (acceleration : Vector3) (deltaTime : float) : A :=
  set_velocity
    (mkVector3 (x (velocity object) + x acceleration * deltaTime)
               (y (velocity object) + y acceleration * deltaTime)
               (z (velocity object) + z acceleration * deltaTime))
    object.

Definition updatePosition {A : Type} `{Kinematic A}
    (object : A) (deltaTime : float) : A :=
  set_position
    (mkVector3 (x (position object) + x (velocity object) * deltaTime)
               (y (position object) + y (velocity object) * deltaTime)
               (z (position object) + z (velocity object) * deltaTime))
    object.

End Physics.

(** * Collaborators outside the modelled code

    The trigonometric and power functions of the JavaScript [Math] object
    are implementation-approximated; three.js computes orientations from
    points; the rocket's launch pose is a constant of objects/Rocket.js.
    The scenes are modelled over any choice of them. *)

Class Externals : Type := {
  Math_cos : float -> float;
  Math_sin : float -> float;
  Math_pow : float -> float -> float;
  (** [object.lookAt(target)] for an object placed at the first argument. *)
  lookAt : Vector3 -> Vector3 -> Quaternion;
  (** The orientation whose local up is the direction from a body's centre
      (first argument) to a point (second argument). *)
  surfaceOrientation : Vector3 -> Vector3 -> Quaternion;
  spawnPosition : Vector3;
  spawnQuaternion : Quaternion
}.

(** [Math.PI] *)
Definition Math_PI : float := 3.141592653589793.

(** [Math.min(a, b)] and [Math.max(a, b)]: [NaN] if either argument is. *)
Definition Math_min (a b : float) : float :=
  if PrimFloat.is_nan a || PrimFloat.is_nan b then JS.NaN
  else if a <? b then a
  else if b <? a then b
  else if PrimFloat.get_sign a then a else b.

Definition Math_max (a b : float) : float :=
  if PrimFloat.is_nan a || PrimFloat.is_nan b then JS.NaN
  else if b <? a then a
  else if a <? b then b
  else if PrimFloat.get_sign a then b else a.

(** * objects/Rocket.js

    The file is not among the sources.  The record holds the fields the
    scenes read and write; [rocket.position] and [rocket.mesh.position] are
    the same vector. *)

Module Rocket.

Record t : Set := mk {
  position : Vector3;
  velocity : Vector3;
  quaternion : Quaternion;
  angularVelocity : Vector3;
  fuel : float;
  maxFuel : float;
  mass : float;
  landingGearDeployed : bool
}.

Definition set_position (p : Vector3) (r : t) : t :=
  mk p (velocity r) (quaternion r) (angularVelocity r) (fuel r) (maxFuel r)
     (mass r) (landingGearDeployed r).

Definition set_velocity (v : Vector3) (r : t) : t :=
  mk (position r) v (quaternion r) (angularVelocity r) (fuel r) (maxFuel r)
     (mass r) (landingGearDeployed r).

Definition set_quaternion (q : Quaternion) (r : t) : t :=
  mk (position r) (velocity r) q (angularVelocity r) (fuel r) (maxFuel r)
     (mass r) (landingGearDeployed r).

Definition set_fuel (f : float) (r : t) : t :=
  mk (position r) (velocity r) (quaternion r) (angularVelocity r) f (maxFuel r)
     (mass r) (landingGearDeployed r).

Definition set_landingGearDeployed (b : bool) (r : t) : t :=
  mk (position r) (velocity r) (quaternion r) (angularVelocity r) (fuel r)
     (maxFuel r) (mass r) b.

Definition set_angularVelocity (w : Vector3) (r : t) : t :=
  mk (position r) (velocity r) (quaternion r) w (fuel r) (maxFuel r)
     (mass r) (landingGearDeployed r).

(** Modelled from the spec: [Rocket.getSpeed] (objects/Rocket.js is
    missing); the speed is the magnitude of the velocity vector. *)
Definition getSpeed (r : t) : float := THREE.length (velocity r).

(** Modelled from the spec: [Rocket.deployLandingGear] and
    [Rocket.retractLandingGear] (objects/Rocket.js is missing); the
    landing gear is a boolean flag with deploy and retract as its only
    transitions. *)
Definition deployLandingGear (r : t) : t := set_landingGearDeployed true r.

Definition retractLandingGear (r : t) : t := set_landingGearDeployed false r.

(** Modelled from the spec: [Rocket.reset] (objects/Rocket.js is missing);
    fuel restored, velocity zeroed, position and orientation reset to the
    launch pose. *)
Definition reset {E : Externals} (r : t) : t :=
  mk spawnPosition (mkVector3 0 0 0) spawnQuaternion (angularVelocity r)
     (maxFuel r) (maxFuel r) (mass r) (landingGearDeployed r).

End Rocket.

#[global] Instance Rocket_Massive : Massive Rocket.t :=
  {| position := Rocket.position; mass := Rocket.mass |}.

#[global] Instance Rocket_Kinematic : Kinematic Rocket.t :=
  {| velocity := Rocket.velocity;
     set_velocity := Rocket.set_velocity;
     set_position := Rocket.set_position |}.

(** * objects/Planet.js

    The file is not among the sources.  The record holds the catalog fields
    the scenes read, the landing-safety parameters and the per-contact
    resolution flag the design document asks for. *)

Inductive LandingResult : Set := LandingNone | LandingSuccess | LandingCrash.

Module Planet.

Record t : Set := mk {
  name : string;
  position : Vector3;
  mass : float;
  radius : float;
  difficulty : float;
  contactThreshold : float;
  safeLandingSpeed : float;
  landingResolved : bool
}.

Definition set_landingResolved (b : bool) (p : t) : t :=
  mk (name p) (position p) (mass p) (radius p) (difficulty p)
     (contactThreshold p) (safeLandingSpeed p) b.

(** Modelled from the spec: [Planet.getAltitude] (objects/Planet.js is
    missing); [altitude(point) = |point - body.position| - body.radius]. *)
Definition getAltitude (p : t) (point : Vector3) : float :=
  distanceTo point (position p) - radius p.

(** Modelled from the spec: [Planet.checkLanding] (objects/Planet.js is
    missing).  The classification triggers when the altitude is below the
    body's contact threshold: success when the speed is below the safe
    limit, crash otherwise.  It fires once per contact episode: an
    "already resolved" flag is set when it fires and cleared once the
    altitude is no longer below the threshold.  The result is returned
    together with the planet carrying the updated flag. *)
Definition checkLanding (p : t) (rocket : Rocket.t) : LandingResult * t :=
  let altitude := getAltitude p (Rocket.position rocket) in
  if altitude <? contactThreshold p then
    if landingResolved p then (LandingNone, p)
    else if Rocket.getSpeed rocket <? safeLandingSpeed p
         then (LandingSuccess, set_landingResolved true p)
         else (LandingCrash, set_landingResolved true p)
  else (LandingNone, set_landingResolved false p).

(** Modelled from the spec: [Planet.orientRocketOnSurface]
    (objects/Planet.js is missing); the rocket takes the surface
    orientation of the point it stands on, its local up along the
    vertical through the body's centre. *)
Definition orientRocketOnSurface {E : Externals} (p : t) (rocket : Rocket.t)
    : Rocket.t :=
  Rocket.set_quaternion
    (surfaceOrientation (position p) (Rocket.position rocket)) rocket.

End Planet.

#[global] Instance Planet_Massive : Massive Planet.t :=
  {| position := Planet.position; mass := Planet.mass |}.

(** * The per-tick command

    The record [inputHandler.getMovementInput()] returns; the scenes read
    its six flags. *)

Module Input.

Record Movement : Set := mkMovement {
  forward : bool;
  backward : bool;
  left : bool;
  right : bool;
  boost : bool;
  decelerate : bool
}.

End Input.

(** [v.applyQuaternion(q)] of three.js, whose floating-point formula
    depends on the library version. *)
Class Rotations : Type := {
  applyQuaternion : Vector3 -> Quaternion -> Vector3
}.

(** * main.js: the solar-system scene

    The later revision of the file (all planets of the catalog, view-mode
    hysteresis, visited-planet set).  A pending [setTimeout] callback is
    kept in the state until the event loop fires it; every callback of the
    scene is scheduled with the same delay, so they fire in the order they
    were scheduled. *)

Module Game.

Inductive Phase : Set := launch | space | landing | gameOver.

Inductive ViewMode : Set := twoD | threeD.

(** The closures the scene hands to [setTimeout]. *)
Inductive Callback : Set := Respawn.

#[global] Instance Phase_eq_dec : EqDecision Phase.
Proof. solve_decision. Defined.

#[global] Instance ViewMode_eq_dec : EqDecision ViewMode.
Proof. solve_decision. Defined.

Record t : Type := mk {
  gameState : Phase;
  score : float;
  planetsVisited : float;
  visitedPlanets : gset string;
  viewMode : ViewMode;
  cameraLerpSpeed : float;
  rocket : Rocket.t;
  earth : Planet.t;
  planets : list Planet.t;
  (** callbacks scheduled with [setTimeout(..., 3000)] and not yet fired *)
  timers : list Callback;
  (** [document.getElementById('gameOverText').textContent] *)
  gameOverText : string;
  (** whether the [gameOver] element is displayed *)
  gameOverDisplayed : bool
}.

Definition set_gameState (v : Phase) (g : t) : t :=
  mk v (score g) (planetsVisited g) (visitedPlanets g) (viewMode g)
     (cameraLerpSpeed g) (rocket g) (earth g)
     (planets g) (timers g) (gameOverText g) (gameOverDisplayed g).

Definition set_score (v : float) (g : t) : t :=
  mk (gameState g) v (planetsVisited g) (visitedPlanets g) (viewMode g)
     (cameraLerpSpeed g) (rocket g) (earth g)
     (planets g) (timers g) (gameOverText g) (gameOverDisplayed g).

Definition set_planetsVisited (v : float) (g : t) : t :=
  mk (gameState g) (score g) v (visitedPlanets g) (viewMode g)
     (cameraLerpSpeed g) (rocket g) (earth g)
     (planets g) (timers g) (gameOverText g) (gameOverDisplayed g).

Definition set_visitedPlanets (v : gset string) (g : t) : t :=
  mk (gameState g) (score g) (planetsVisited g) v (viewMode g)
     (cameraLerpSpeed g) (rocket g) (earth g)
     (planets g) (timers g) (gameOverText g) (gameOverDisplayed g).

Definition set_view (v : ViewMode) (lerpSpeed : float) (g : t) : t :=
  mk (gameState g) (score g) (planetsVisited g) (visitedPlanets g) v
     lerpSpeed (rocket g) (earth g)
     (planets g) (timers g) (gameOverText g) (gameOverDisplayed g).

Definition set_rocket (v : Rocket.t) (g : t) : t :=
  mk (gameState g) (score g) (planetsVisited g) (visitedPlanets g) (viewMode g)
     (cameraLerpSpeed g) v (earth g)
     (planets g) (timers g) (gameOverText g) (gameOverDisplayed g).

Definition set_earth (v : Planet.t) (g : t) : t :=
  mk (gameState g) (score g) (planetsVisited g) (visitedPlanets g) (viewMode g)
     (cameraLerpSpeed g) (rocket g) v
     (planets g) (timers g) (gameOverText g) (gameOverDisplayed g).

Definition set_planets (v : list Planet.t) (g : t) : t :=
  mk (gameState g) (score g) (planetsVisited g) (visitedPlanets g) (viewMode g)
     (cameraLerpSpeed g) (rocket g) (earth g)
     v (timers g) (gameOverText g) (gameOverDisplayed g).

Definition set_timers (v : list Callback) (g : t) : t :=
  mk (gameState g) (score g) (planetsVisited g) (visitedPlanets g) (viewMode g)
     (cameraLerpSpeed g) (rocket g) (earth g)
     (planets g) v (gameOverText g) (gameOverDisplayed g).

Definition set_gameOver (text : string) (g : t) : t :=
  mk (gameState g) (score g) (planetsVisited g) (visitedPlanets g) (viewMode g)
     (cameraLerpSpeed g) (rocket g) (earth g)
     (planets g) (timers g) text true.

(** [setTimeout(callback, 3000)] *)
Definition setTimeout (c : Callback) (g : t) : t :=
  set_timers (timers g ++ [c]) g.

(** [this.planetaryProximityThreshold = 300], set by the constructor and
    never assigned again. *)
Definition planetaryProximityThreshold : float := 300.

Section Scene.

Context {E : Externals}.

Definition positionRocketOnEurope (g : t) : t :=
  set_rocket (Planet.orientRocketOnSurface (earth g) (rocket g)) g.

(** The body of the arrow function [onLandingSuccess] schedules. *)
Definition respawn (g : t) : t :=
  let g := set_rocket (Rocket.reset (rocket g)) g in
  let g := positionRocketOnEurope g in
  set_gameState launch g.

Definition runCallback (c : Callback) (g : t) : t :=
  match c with
  | Respawn => respawn g
  end.

(** The event loop fires the oldest pending callback. *)
Definition fireTimer (g : t) : t :=
  match timers g with
  | [] => g
  | c :: rest => runCallback c (set_timers rest g)
  end.

End Scene.

Definition onGameOver (message : string) (g : t) : t :=
  set_gameOver message (set_gameState gameOver g).

Definition onLandingSuccess (planet : Planet.t) (g : t) : t :=
  if negb (bool_decide (Planet.name planet ∈ visitedPlanets g)) then
    let g := set_planetsVisited (planetsVisited g + 1) g in
    let g := set_visitedPlanets (visitedPlanets g ∪ {[Planet.name planet]}) g in
    let g := set_score (score g + 1000 * Planet.difficulty planet) g in
    let g := set_score (score g + Rocket.fuel (rocket g) * 10) g in
    setTimeout Respawn g
  else g.

(** The value of the local variable [closestAltitude] of [updateViewMode]:
    the planets are scanned only when the rocket is not near Earth. *)
Definition closestAltitude (g : t) : float :=
  let earthAltitude := Planet.getAltitude (earth g) (Rocket.position (rocket g)) in
  let nearAnyPlanet := earthAltitude <? planetaryProximityThreshold in
  if negb nearAnyPlanet then
    fold_left
      (fun closestAltitude planet =>
         let altitude := Planet.getAltitude planet (Rocket.position (rocket g)) in
         if altitude <? closestAltitude then altitude else closestAltitude)
      (planets g) earthAltitude
  else earthAltitude.

Definition updateViewMode (g : t) : t :=
  let closestAltitude := closestAltitude g in
  let switchThreshold := planetaryProximityThreshold in
  let returnThreshold := planetaryProximityThreshold * 1.5 in
  let viewMode' :=
    if bool_decide (viewMode g = twoD) && (closestAltitude <? switchThreshold)
    then threeD
    else if bool_decide (viewMode g = threeD) && (returnThreshold <? closestAltitude)
    then twoD
    else viewMode g in
  set_view viewMode'
    (if bool_decide (viewMode' = threeD) then 0.08 else 0.05) g.

(** What [checkGameState] does with one planet's landing result. *)
Definition dispatchLanding (result : LandingResult) (planet : Planet.t) (g : t) : t :=
  match result with
  | LandingSuccess => onLandingSuccess planet g
  | LandingCrash => onGameOver "Crashed! Landing speed too high." g
  | LandingNone => g
  end.

(** [this.planets.forEach(planet => { const landingResult =
    planet.checkLanding(this.rocket); ... })] *)
Definition checkPlanetLandings (g : t) : t :=
  let '(g', planets') :=
    fold_left
      (fun '(g, checked) planet =>
         let '(landingResult, planet') := Planet.checkLanding planet (rocket g) in
         (dispatchLanding landingResult planet' g, checked ++ [planet']))
      (planets g) (g, []) in
  set_planets planets' g'.

Definition checkGameState (g : t) : t :=
  let earthAltitude := Planet.getAltitude (earth g) (Rocket.position (rocket g)) in
  let g :=
    if bool_decide (gameState g = launch) && (200 <? earthAltitude)
    then set_gameState space g else g in
  let closestPlanetAltitude :=
    fold_left
      (fun closestPlanetAltitude planet =>
         let altitude := Planet.getAltitude planet (Rocket.position (rocket g)) in
         if altitude <? closestPlanetAltitude then altitude
         else closestPlanetAltitude)
      (planets g) JS.Infinity in
  let g :=
    if bool_decide (gameState g = space) && (closestPlanetAltitude <? 200)
    then set_gameState landing g else g in
  let g := updateViewMode g in
  let '(earthLandingResult, earth') := Planet.checkLanding (earth g) (rocket g) in
  let g := set_earth earth' g in
  let g := dispatchLanding earthLandingResult earth' g in
  let g := checkPlanetLandings g in
  if (Rocket.fuel (rocket g) <=? 0) && (Rocket.getSpeed (rocket g) <? 0.1)
     && (10 <? earthAltitude)
  then onGameOver "Out of fuel!" g else g.

(** The gravity passed to [rocket.update] by [update]:
    [let totalGravity = applyGravity(rocket, earth)] followed by
    [planets.forEach(planet => totalGravity.add(applyGravity(rocket, planet)))]. *)
Definition totalGravity (g : t) : Vector3 :=
  let totalGravity := Physics.applyGravity (rocket g) (earth g) in
  fold_left
    (fun totalGravity planet =>
       let gravity := Physics.applyGravity (rocket g) planet in
       THREE.add totalGravity gravity)
    (planets g) totalGravity.

Definition updateLandingGearDeployment (g : t) : t :=
  let deploymentAltitude := 100 in
  let shouldDeploy := false in
  let earthAltitude := Planet.getAltitude (earth g) (Rocket.position (rocket g)) in
  let shouldDeploy :=
    if earthAltitude <? deploymentAltitude then true else shouldDeploy in
  let shouldDeploy :=
    fold_left
      (fun shouldDeploy planet =>
         let altitude := Planet.getAltitude planet (Rocket.position (rocket g)) in
         if altitude <? deploymentAltitude then true else shouldDeploy)
      (planets g) shouldDeploy in
  if shouldDeploy then set_rocket (Rocket.deployLandingGear (rocket g)) g
  else set_rocket (Rocket.retractLandingGear (rocket g)) g.

(** The flag [nearPlanet] that [update] passes to [rocket.update]: the
    planets are scanned only when the rocket is not near Earth. *)
Definition nearPlanet (g : t) : bool :=
  let earthAltitude := Planet.getAltitude (earth g) (Rocket.position (rocket g)) in
  let atmosphericRange := 300 in
  let nearPlanet := earthAltitude <? atmosphericRange in
  if negb nearPlanet then
    fold_left
      (fun nearPlanet planet =>
         let altitude := Planet.getAltitude planet (Rocket.position (rocket g)) in
         if altitude <? atmosphericRange then true else nearPlanet)
      (planets g) nearPlanet
  else nearPlanet.

(** The closest body [updateHUD] shows, with the altitude it shows for it
    before rounding; Earth and every planet are compared, near Earth or
    not. *)
Definition updateHUD_closest (g : t) : float * Planet.t :=
  let closestAltitude := Planet.getAltitude (earth g) (Rocket.position (rocket g)) in
  let closestPlanet := earth g in
  fold_left
    (fun '(closestAltitude, closestPlanet) planet =>
       let altitude := Planet.getAltitude planet (Rocket.position (rocket g)) in
       if altitude <? closestAltitude then (altitude, planet)
       else (closestAltitude, closestPlanet))
    (planets g) (closestAltitude, closestPlanet).

(** The direction [update] hands to [rocket.applyRCSThrust], if any: the
    controls work only above speed 0.5 and when the composed direction is
    not the zero vector. *)
Definition rcsCommand (movement : Input.Movement) (r : Rocket.t) : option Vector3 :=
  if 0.5 <? Rocket.getSpeed r then
    let rcsDirection := mkVector3 0 0 0 in
    let rcsDirection :=
      if Input.forward movement
      then mkVector3 (x rcsDirection) (y rcsDirection) (z rcsDirection - 0.15)
      else rcsDirection in
    let rcsDirection :=
      if Input.backward movement
      then mkVector3 (x rcsDirection) (y rcsDirection) (z rcsDirection + 0.15)
      else rcsDirection in
    let rcsDirection :=
      if Input.left movement
      then mkVector3 (x rcsDirection - 0.15) (y rcsDirection) (z rcsDirection)
      else rcsDirection in
    let rcsDirection :=
      if Input.right movement
      then mkVector3 (x rcsDirection + 0.15) (y rcsDirection) (z rcsDirection)
      else rcsDirection in
    let rcsDirection :=
      if Input.decelerate movement then
        let velocity := negate (normalize (Rocket.velocity r)) in
        THREE.add rcsDirection (multiplyScalar velocity 0.3)
      else rcsDirection in
    if 0 <? THREE.length rcsDirection then Some (normalize rcsDirection) else None
  else None.

(** [this.cameraPosition] and [this.cameraTarget], the smoothed camera. *)
Record Camera : Set := mkCamera {
  cameraPosition : Vector3;
  cameraTarget : Vector3
}.

Section Orientation.

Context {E : Externals} {R : Rotations}.

(** The closest body within the orientation altitude, as the first part of
    [updateRocketOrientation] selects it, with its altitude. *)
Definition orientationTarget (g : t) : option Planet.t * float :=
  let orientationAltitude := 20 in
  let closestPlanet := None in
  let closestDistance := JS.Infinity in
  let earthAltitude := Planet.getAltitude (earth g) (Rocket.position (rocket g)) in
  let '(closestPlanet, closestDistance) :=
    if (earthAltitude <? orientationAltitude) && (earthAltitude <? closestDistance)
    then (Some (earth g), earthAltitude)
    else (closestPlanet, closestDistance) in
  fold_left
    (fun '(closestPlanet, closestDistance) planet =>
       let altitude := Planet.getAltitude planet (Rocket.position (rocket g)) in
       if (altitude <? orientationAltitude) && (altitude <? closestDistance)
       then (Some planet, altitude)
       else (closestPlanet, closestDistance))
    (planets g) (closestPlanet, closestDistance).

(** [upDirection.multiplyScalar(10)] scales the up direction in place
    before [desiredForward] clones it, so the rocket's forward axis is
    blended towards ten times the unit vertical. *)
Definition updateRocketOrientation (g : t) : t :=
  match fst (orientationTarget g) with
  | Some closestPlanet =>
      if Rocket.getSpeed (rocket g) <? 15 then
        let planetCenter := Planet.position closestPlanet in
        let rocketPosition := Rocket.position (rocket g) in
        let upDirection := normalize (subVectors rocketPosition planetCenter) in
        let upDirection := multiplyScalar upDirection 10 in
        let currentForward :=
          applyQuaternion (mkVector3 0 1 0) (Rocket.quaternion (rocket g)) in
        let desiredForward := upDirection in
        let lerpFactor := 0.05 in
        let newForward := lerp currentForward desiredForward lerpFactor in
        set_rocket
          (Rocket.set_quaternion
             (lookAt rocketPosition
                     (THREE.add rocketPosition (multiplyScalar newForward 10)))
             (rocket g)) g
      else g
  | None => g
  end.

(** [updateCamera]: [None] stands for the [TypeError] raised by
    [cameraOffset.clone()] when no case of the [switch] has assigned
    [cameraOffset].  The camera object copies the smoothed position and
    looks at the smoothed target; it is not kept. *)
Definition updateCamera (g : t) (c : Camera) : option Camera :=
  let rocketPos := Rocket.position (rocket g) in
  let desiredTarget := rocketPos in
  let desiredPosition : option Vector3 :=
    if bool_decide (viewMode g = twoD) then
      let distance := 80 + Math_min (Rocket.getSpeed (rocket g) * 2) 40 in
      Some (mkVector3 (x rocketPos) (y rocketPos + distance) (z rocketPos))
    else
      let cameraOffset : option (Vector3 * bool) :=
        match gameState g with
        | launch => Some (mkVector3 30 20 50, false)
        | space =>
            let distance := 40 + Math_min (Rocket.getSpeed (rocket g) * 3) 60 in
            Some (mkVector3 0 5 distance, true)
        | landing => Some (mkVector3 0 15 15, true)
        | gameOver => None
        end in
      match cameraOffset with
      | Some (cameraOffset, useRocketRotation) =>
          if useRocketRotation then
            let rotatedOffset :=
              applyQuaternion cameraOffset (Rocket.quaternion (rocket g)) in
            Some (THREE.add rocketPos rotatedOffset)
          else Some (THREE.add rocketPos cameraOffset)
      | None => None
      end in
  match desiredPosition with
  | Some desiredPosition =>
      Some (mkCamera (lerp (cameraPosition c) desiredPosition (cameraLerpSpeed g))
                     (lerp (cameraTarget c) desiredTarget (cameraLerpSpeed g)))
  | None => None
  end.

End Orientation.

End Game.

(** * scenes/PlanetScene.js: the single-planet scene

    The latest revision of the file (exit threshold 1120, Earth-specific
    transfer, enhanced gravity).  [console.log] is the scene's observable
    output and is kept as a list of lines. *)

Module PlanetScene.

Inductive Stage : Set := approaching | landing | landed | launching.

#[global] Instance Stage_eq_dec : EqDecision Stage.
Proof. solve_decision. Defined.

Inductive Callback : Set := Respawn.

(** The lines the scene writes with [console.log]. *)
Inductive LogLine : Set :=
  | LogLandedOn (name : string) (altitude : float)
  | LogApproaching (name : string) (altitude : float)
  | LogLeaving (name : string) (distance : float)
  | LogSuccessfullyLanded (name : string)
  | LogGameOver (message : string).

Record t : Set := mk {
  gameState : Stage;
  planet : Planet.t;
  rocket : Rocket.t;
  exitThreshold : float;
  cameraPosition : Vector3;
  cameraTarget : Vector3;
  cameraLerpSpeed : float;
  (** callbacks scheduled with [setTimeout(..., 2000)] and not yet fired *)
  timers : list Callback;
  console : list LogLine;
  gameOverText : string;
  gameOverDisplayed : bool
}.

Definition set_gameState (v : Stage) (s : t) : t :=
  mk v (planet s) (rocket s) (exitThreshold s) (cameraPosition s)
     (cameraTarget s) (cameraLerpSpeed s) (timers s) (console s)
     (gameOverText s) (gameOverDisplayed s).

Definition set_planet (v : Planet.t) (s : t) : t :=
  mk (gameState s) v (rocket s) (exitThreshold s) (cameraPosition s)
     (cameraTarget s) (cameraLerpSpeed s) (timers s) (console s)
     (gameOverText s) (gameOverDisplayed s).

Definition set_rocket (v : Rocket.t) (s : t) : t :=
  mk (gameState s) (planet s) v (exitThreshold s) (cameraPosition s)
     (cameraTarget s) (cameraLerpSpeed s) (timers s) (console s)
     (gameOverText s) (gameOverDisplayed s).

Definition set_camera (position target : Vector3) (s : t) : t :=
  mk (gameState s) (planet s) (rocket s) (exitThreshold s) position
     target (cameraLerpSpeed s) (timers s) (console s)
     (gameOverText s) (gameOverDisplayed s).

Definition set_timers (v : list Callback) (s : t) : t :=
  mk (gameState s) (planet s) (rocket s) (exitThreshold s) (cameraPosition s)
     (cameraTarget s) (cameraLerpSpeed s) v (console s)
     (gameOverText s) (gameOverDisplayed s).

Definition console_log (line : LogLine) (s : t) : t :=
  mk (gameState s) (planet s) (rocket s) (exitThreshold s) (cameraPosition s)
     (cameraTarget s) (cameraLerpSpeed s) (timers s) (console s ++ [line])
     (gameOverText s) (gameOverDisplayed s).

Definition set_gameOver (text : string) (s : t) : t :=
  mk (gameState s) (planet s) (rocket s) (exitThreshold s) (cameraPosition s)
     (cameraTarget s) (cameraLerpSpeed s) (timers s) (console s) text true.

(** [setTimeout(callback, 2000)] *)
Definition setTimeout (c : Callback) (s : t) : t :=
  set_timers (timers s ++ [c]) s.

Definition updateGameState (s : t) : t :=
  let altitude := Planet.getAltitude (planet s) (Rocket.position (rocket s)) in
  let speed := Rocket.getSpeed (rocket s) in
  if bool_decide (gameState s = approaching) && (altitude <? 800) then
    set_gameState landing s
  else if bool_decide (gameState s = landing) && (speed <? 1) && (altitude <? 40) then
    set_gameState landed s
  else if bool_decide (gameState s = landed) && (5 <? speed) then
    set_gameState launching s
  else if bool_decide (gameState s = launching) && (800 <? altitude) then
    set_gameState approaching s
  else s.

Definition updateLandingGear (s : t) : t :=
  let altitude := Planet.getAltitude (planet s) (Rocket.position (rocket s)) in
  if altitude <? 800 then set_rocket (Rocket.deployLandingGear (rocket s)) s
  else set_rocket (Rocket.retractLandingGear (rocket s)) s.

Definition isRocketLeavingPlanet (s : t) : bool * t :=
  let distanceFromSurface :=
    Planet.getAltitude (planet s) (Rocket.position (rocket s)) in
  let s :=
    if exitThreshold s <? distanceFromSurface
    then console_log (LogLeaving (Planet.name (planet s)) distanceFromSurface) s
    else s in
  (exitThreshold s <? distanceFromSurface, s).

Definition onGameOver (message : string) (s : t) : t :=
  set_gameOver message (console_log (LogGameOver message) s).

Definition onLandingSuccess (s : t) : t :=
  let s := console_log (LogSuccessfullyLanded (Planet.name (planet s))) s in
  setTimeout Respawn s.

Definition checkLanding (s : t) : t :=
  let '(landingResult, planet') := Planet.checkLanding (planet s) (rocket s) in
  let s := set_planet planet' s in
  match landingResult with
  | LandingSuccess => onLandingSuccess s
  | LandingCrash => onGameOver "Crashed! Landing speed too high." s
  | LandingNone => s
  end.

Section Scene.

Context {E : Externals}.

(** The camera object and the rocket light copy [cameraPosition],
    [cameraTarget] and the rocket position; they are not kept.  The side
    direction is scaled in place before it is cloned for the third
    term, so that term is scaled twice. *)
Definition updateCamera (s : t) : t :=
  let rocketPos := Rocket.position (rocket s) in
  let planetPos := Planet.position (planet s) in
  let altitude := Planet.getAltitude (planet s) rocketPos in
  let cameraAngle := Math_PI * 0.75 in
  let baseDistance := 15 in
  let maxDistance := 50 in
  let altitudeScaling := Math_min (altitude / 1120) 1 in
  let dynamicDistance := baseDistance + (maxDistance - baseDistance) * altitudeScaling in
  let upDirection := normalize (subVectors rocketPos planetPos) in
  let sideDirection :=
    normalize (mkVector3 (Math_cos cameraAngle) 0 (Math_sin cameraAngle)) in
  let sideDistance := Math_max (dynamicDistance * 0.8) 10 in
  let heightDistance := Math_max (dynamicDistance * 0.5) 8 in
  let backDistance := Math_max (dynamicDistance * 0.3) 3 in
  let sideDirection := multiplyScalar sideDirection sideDistance in
  let desiredPosition :=
    THREE.add
      (THREE.add (THREE.add rocketPos sideDirection)
                 (multiplyScalar upDirection heightDistance))
      (multiplyScalar sideDirection (- backDistance)) in
  set_camera (lerp (cameraPosition s) desiredPosition (cameraLerpSpeed s))
             (lerp (cameraTarget s) rocketPos (cameraLerpSpeed s)) s.

Definition transferRocketFromSolarSystem (solarSystemRocket : Rocket.t) (s : t) : t :=
  let s := set_rocket (Rocket.set_fuel (Rocket.fuel solarSystemRocket) (rocket s)) s in
  let s := set_rocket
             (Rocket.set_velocity (Rocket.velocity solarSystemRocket) (rocket s)) s in
  let s :=
    if String.eqb (Planet.name (planet s)) "Earth" then
      let landingAngle := Math_PI * 0.25 in
      let surfaceDistance := Planet.radius (planet s) + 2 in
      let s := set_rocket
                 (Rocket.set_position
                    (mkVector3 (Math_cos landingAngle * surfaceDistance)
                               0
                               (Math_sin landingAngle * surfaceDistance))
                    (rocket s)) s in
      let s := set_rocket (Rocket.set_velocity (mkVector3 0 0 0) (rocket s)) s in
      let s := set_rocket (Planet.orientRocketOnSurface (planet s) (rocket s)) s in
      let s := set_rocket (Rocket.deployLandingGear (rocket s)) s in
      let s := console_log
                 (LogLandedOn (Planet.name (planet s))
                    (Planet.getAltitude (planet s) (Rocket.position (rocket s)))) s in
      set_gameState landed s
    else
      let rocketAngle := Math_PI * 0.25 in
      let approachDistance := Planet.radius (planet s) + 800 in
      let s := set_rocket
                 (Rocket.set_position
                    (mkVector3 (Math_cos rocketAngle * approachDistance)
                               200
                               (Math_sin rocketAngle * approachDistance))
                    (rocket s)) s in
      let s := set_rocket (Rocket.set_velocity (mkVector3 0 0 0) (rocket s)) s in
      let s := set_rocket
                 (Rocket.set_quaternion
                    (lookAt (Rocket.position (rocket s)) (Planet.position (planet s)))
                    (rocket s)) s in
      let s := console_log
                 (LogApproaching (Planet.name (planet s))
                    (Planet.getAltitude (planet s) (Rocket.position (rocket s)))) s in
      set_gameState approaching s in
  updateCamera s.

Definition calculateAtmosphericDrag (altitude : float) : float :=
  let maxDrag := 0.15 in
  let atmosphereHeight := 2400 in
  if atmosphereHeight <=? altitude then 0
  else
    let dragFactor := 1 - (altitude / atmosphereHeight) in
    maxDrag * Math_pow dragFactor 1.5.

Definition applyEnhancedGravity (s : t) : Vector3 :=
  let rocketPos := Rocket.position (rocket s) in
  let planetPos := Planet.position (planet s) in
  let altitude := Planet.getAltitude (planet s) rocketPos in
  let distance := distanceTo rocketPos planetPos in
  let enhancedGravityRange := Planet.radius (planet s) * 6 in
  let strongGravityRange := Planet.radius (planet s) * 2 in
  if enhancedGravityRange <? distance then mkVector3 0 0 0
  else
    let baseGravity := Physics.applyGravity (rocket s) (planet s) in
    let gravityMultiplier :=
      if distance <? strongGravityRange then
        let proximityFactor := (strongGravityRange - distance) / strongGravityRange in
        1.0 + (proximityFactor * 2.5)
      else if distance <? enhancedGravityRange then
        let rangeFactor :=
          (enhancedGravityRange - distance)
          / (enhancedGravityRange - strongGravityRange) in
        1.0 + (rangeFactor * 0.8)
      else 1.0 in
    let baseGravity :=
      if altitude <? 2400 then
        let atmosphericDrag := calculateAtmosphericDrag altitude in
        let dragForce := multiplyScalar (Rocket.velocity (rocket s)) (- atmosphericDrag) in
        THREE.add baseGravity dragForce
      else baseGravity in
    multiplyScalar baseGravity gravityMultiplier.

(** The body of the arrow function [onLandingSuccess] schedules. *)
Definition respawn (s : t) : t :=
  let s := set_rocket (Rocket.reset (rocket s)) s in
  let s := set_rocket (Planet.orientRocketOnSurface (planet s) (rocket s)) s in
  set_gameState launching s.

Definition fireTimer (s : t) : t :=
  match timers s with
  | [] => s
  | Respawn :: rest => respawn (set_timers rest s)
  end.

End Scene.

(** The direction [update] hands to [rocket.applyRCSThrust], if any; in
    this scene the controls work at any speed. *)
Definition rcsCommand (movement : Input.Movement) (r : Rocket.t) : option Vector3 :=
  let rcsDirection := mkVector3 0 0 0 in
  let rcsDirection :=
    if Input.forward movement
    then mkVector3 (x rcsDirection) (y rcsDirection) (z rcsDirection - 0.25)
    else rcsDirection in
  let rcsDirection :=
    if Input.backward movement
    then mkVector3 (x rcsDirection) (y rcsDirection) (z rcsDirection + 0.25)
    else rcsDirection in
  let rcsDirection :=
    if Input.left movement
    then mkVector3 (x rcsDirection - 0.25) (y rcsDirection) (z rcsDirection)
    else rcsDirection in
  let rcsDirection :=
    if Input.right movement
    then mkVector3 (x rcsDirection + 0.25) (y rcsDirection) (z rcsDirection)
    else rcsDirection in
  let rcsDirection :=
    if Input.decelerate movement then
      let velocity := negate (normalize (Rocket.velocity r)) in
      THREE.add rcsDirection (multiplyScalar velocity 0.4)
    else rcsDirection in
  if 0 <? THREE.length rcsDirection then Some (normalize rcsDirection) else None.

(** The rotation controls of [update]: the input is added to the angular
    velocity, scaled by [deltaTime * 3], unless it is the zero vector. *)
Definition applyRotationInput (movement : Input.Movement) (deltaTime : float)
    (r : Rocket.t) : Rocket.t :=
  let rotationInput := mkVector3 0 0 0 in
  let rotationInput :=
    if Input.forward movement
    then mkVector3 (x rotationInput + 0.8) (y rotationInput) (z rotationInput)
    else rotationInput in
  let rotationInput :=
    if Input.backward movement
    then mkVector3 (x rotationInput - 0.8) (y rotationInput) (z rotationInput)
    else rotationInput in
  let rotationInput :=
    if Input.left movement
    then mkVector3 (x rotationInput) (y rotationInput) (z rotationInput + 0.8)
    else rotationInput in
  let rotationInput :=
    if Input.right movement
    then mkVector3 (x rotationInput) (y rotationInput) (z rotationInput - 0.8)
    else rotationInput in
  if 0 <? THREE.length rotationInput then
    Rocket.set_angularVelocity
      (THREE.add (Rocket.angularVelocity r)
                 (multiplyScalar rotationInput (deltaTime * 3))) r
  else r.

End PlanetScene.

(** * Vocabulary of the properties and example scenarios *)

(** The sum [first + v1 + ... + vn], added in this order. *)
Definition sumVectors (first : Vector3) (rest : list Vector3) : Vector3 :=
  fold_left THREE.add rest first.

Module Examples.

(** Collaborators for the examples: the cosine and sine of the two angles
    the scene uses (a quarter and three quarters of [Math.PI]), a power
    function good for the exponent 1.5, fixed orientations and a launch
    pose on top of Earth. *)
Definition externals : Externals := {|
  Math_cos := fun a =>
    if a =? Math_PI * 0.25 then 0.7071067811865476 else -0.7071067811865475;
  Math_sin := fun a =>
    if a =? Math_PI * 0.25 then 0.7071067811865475 else 0.7071067811865476;
  Math_pow := fun a _ => a * PrimFloat.sqrt a;
  lookAt := fun _ _ => mkQuaternion 0 0 0 1;
  surfaceOrientation := fun _ _ => mkQuaternion 0 0 0 1;
  spawnPosition := mkVector3 0 102 0;
  spawnQuaternion := mkQuaternion 0 0 0 1
|}.

Definition rocketAt (p v : Vector3) (fuel : float) : Rocket.t :=
  Rocket.mk p v (mkQuaternion 0 0 0 1) (mkVector3 0 0 0) fuel 100 1 false.

Definition earth : Planet.t :=
  Planet.mk "Earth" (mkVector3 0 0 0) 1000 100 1 5 3 false.

Definition mars : Planet.t :=
  Planet.mk "Mars" (mkVector3 2000 0 0) 500 70 4 5 3 false.

(** A rocket standing at the very centre of a body. *)
Definition rocketAtCentre : Rocket.t :=
  rocketAt (mkVector3 0 0 0) (mkVector3 0 0 0) 100.

(** A rocket 500 units from Earth's centre. *)
Definition rocketInSpace : Rocket.t :=
  rocketAt (mkVector3 300 0 400) (mkVector3 0 0 0) 100.

(** A rocket resting on Mars, 2 units above its surface, tank empty. *)
Definition rocketOnMars : Rocket.t :=
  rocketAt (mkVector3 2072 0 0) (mkVector3 0 0 0) 0.

(** The solar-system scene in the tick in which that rocket touches down. *)
Definition touchdownOnMars : Game.t :=
  Game.mk Game.landing 0 0 ∅ Game.threeD 0.08 rocketOnMars earth [mars] [] "" false.

(** The single-planet scene around a planet of radius 560 at the origin. *)
Definition marsClose : Planet.t :=
  Planet.mk "Mars" (mkVector3 0 0 0) 500 560 4 5 3 false.

Definition marsScene (r : Rocket.t) : PlanetScene.t :=
  PlanetScene.mk PlanetScene.landing marsClose r 1120
                 (mkVector3 0 500 1000) (mkVector3 0 0 0) 0.12 [] [] "" false.

(** Three ticks of a rocket settling on that planet: touching down at
    speed 2, then at rest slightly lower, then at rest. *)
Definition settling : list Rocket.t :=
  [ rocketAt (mkVector3 564 0 0) (mkVector3 (-2) 0 0) 40;
    rocketAt (mkVector3 562 0 0) (mkVector3 0 0 0) 40;
    rocketAt (mkVector3 562 0 0) (mkVector3 0 0 0) 40 ].

(** The single-planet scene around an Earth of radius 800 at the origin. *)
Definition earthClose : Planet.t :=
  Planet.mk "Earth" (mkVector3 0 0 0) 1000 800 1 5 3 false.

Definition earthScene (r : Rocket.t) : PlanetScene.t :=
  PlanetScene.mk PlanetScene.approaching earthClose r 1120
                 (mkVector3 0 500 1000) (mkVector3 0 0 0) 0.12 [] [] "" false.

(** A rocket arriving from the solar-system scene, moving, tank at 37. *)
Definition arrivingRocket : Rocket.t :=
  rocketAt (mkVector3 1500 0 20) (mkVector3 3 0 (-4)) 37.

(** The solar-system scene in space, Mars far away, with the rocket at a
    given altitude above Earth. *)
Definition cruising (altitude : float) : Game.t :=
  Game.mk Game.space 0 0 ∅ Game.twoD 0.05
          (rocketAt (mkVector3 (100 + altitude) 0 0) (mkVector3 1 0 0) 80)
          earth [mars] [] "" false.

End Examples.

(** C2 as it is stated: a respawn callback that fires while the scene is in
    the [gameOver] phase leaves the phase and the rocket as they are. *)
Definition staleRespawnIgnored {E : Externals} : Prop :=
  forall g : Game.t,
    Game.gameState g = Game.gameOver ->
    Game.gameState (Game.fireTimer g) = Game.gameOver
    /\ Game.rocket (Game.fireTimer g) = Game.rocket g.


(** Where an altitude lies with respect to the hysteresis band between
    the proximity threshold [T] and [1.5 * T]. *)
Inductive BandSide : Set := BelowBand | InsideBand | AboveBand.

#[global] Instance BandSide_eq_dec : EqDecision BandSide.
Proof. solve_decision. Defined.

Definition bandSide (altitude : float) : BandSide :=
  if altitude <? Game.planetaryProximityThreshold then BelowBand
  else if Game.planetaryProximityThreshold * 1.5 <? altitude then AboveBand
  else InsideBand.

(** The view mode [updateViewMode] leaves in a tick entered with [mode],
    [g] being the scene as the flight model left it in that tick. *)
Definition viewModeAfter (mode : Game.ViewMode) (g : Game.t) : Game.ViewMode :=
  Game.viewMode
    (Game.updateViewMode (Game.set_view mode (Game.cameraLerpSpeed g) g)).

(** The view modes at the end of successive ticks, the view mode being
    carried over from one tick to the next. *)
Fixpoint viewModesAlong (mode : Game.ViewMode) (ticks : list Game.t)
    : list Game.ViewMode :=
  match ticks with
  | [] => []
  | g :: rest =>
      viewModeAfter mode g :: viewModesAlong (viewModeAfter mode g) rest
  end.

(** How many times the view mode changes along a sequence of modes. *)
Fixpoint toggles (mode : Game.ViewMode) (modes : list Game.ViewMode) : nat :=
  match modes with
  | [] => 0
  | m :: rest => (if bool_decide (m = mode) then 0 else 1) + toggles m rest
  end.

(** How many times a sequence of altitudes crosses the whole band, from
    below [T] to above [1.5 * T] or back; [last] is the side on which the
    sequence was last seen outside the band. *)
Fixpoint crossings (last : option BandSide) (altitudes : list float) : nat :=
  match altitudes with
  | [] => 0
  | a :: rest =>
      match bandSide a with
      | InsideBand => crossings last rest
      | side =>
          match last with
          | Some l => if bool_decide (l = side) then 0 else 1
          | None => 0
          end + crossings (Some side) rest
      end
  end.

(** The rocket is within the contact threshold of the planet. *)
Definition inContact (p : Planet.t) (r : Rocket.t) : Prop :=
  (Planet.getAltitude p (Rocket.position r) <? Planet.contactThreshold p) = true.

(** The results [planet.checkLanding] returns tick after tick, the rocket
    of each tick being the corresponding element of [ticks]. *)
Fixpoint landingResultsAlong (p : Planet.t) (ticks : list Rocket.t)
    : list LandingResult :=
  match ticks with
  | [] => []
  | r :: rest =>
      fst (Planet.checkLanding p r)
      :: landingResultsAlong (snd (Planet.checkLanding p r)) rest
  end.

(** The single-planet scene after its [checkLanding] has run once per tick. *)
Fixpoint checkLandingAlong (s : PlanetScene.t) (ticks : list Rocket.t)
    : PlanetScene.t :=
  match ticks with
  | [] => s
  | r :: rest =>
      checkLandingAlong (PlanetScene.checkLanding (PlanetScene.set_rocket r s)) rest
  end.

Definition isOutcome (result : LandingResult) : bool :=
  match result with
  | LandingNone => false
  | LandingSuccess | LandingCrash => true
  end.

(** How many of the results are a success or a crash. *)
Definition outcomes (results : list LandingResult) : nat :=
  List.length (filter (fun result => isOutcome result = true) results).

(** The close-range factor of [applyEnhancedGravity]:
    [1.0 + (proximityFactor * 2.5)] with
    [proximityFactor = (strongGravityRange - distance) / strongGravityRange]
    and [strongGravityRange = radius * 2]. *)
Definition strongGravityMultiplier (radius distance : float) : float :=
  1.0 + (((radius * 2 - distance) / (radius * 2)) * 2.5).



(** * Vocabulary of the further properties *)

(** The vector all of whose components are [NaN]. *)
Definition nanVector : Vector3 := mkVector3 nan nan nan.

(** The rocket and the body are at measured distance zero. *)
Definition atZeroDistance (r : Rocket.t) (p : Planet.t) : Prop :=
  (distanceTo (Rocket.position r) (Planet.position p) =? 0) = true.

(** One step of the integrator of utils/Physics.js: the velocity is
    advanced by the acceleration, then the position by the new velocity. *)
Definition eulerStep (object : Rocket.t) (step : Vector3 * float) : Rocket.t :=
  let '(acceleration, deltaTime) := step in
  Physics.updatePosition (Physics.updateVelocity object acceleration deltaTime) deltaTime.

(** The bodies of the solar-system scene: Earth first, then the planets in
    the order the scene visits them. *)
Definition bodies (g : Game.t) : list Planet.t := Game.earth g :: Game.planets g.

(** The rocket's altitude above a body. *)
Definition altitudeAbove (g : Game.t) (p : Planet.t) : float :=
  Planet.getAltitude p (Rocket.position (Game.rocket g)).

(** The rocket's altitude above the body is below [limit]. *)
Definition within (limit : float) (g : Game.t) (p : Planet.t) : bool :=
  altitudeAbove g p <? limit.

(** The phases of the solar-system scene in the order a flight goes
    through them. *)
Definition phaseRank (phase : Game.Phase) : nat :=
  match phase with
  | Game.launch => 0
  | Game.space => 1
  | Game.landing => 2
  | Game.gameOver => 3
  end.

(** The command with both keys of an axis released when both are held. *)
Definition releaseOpposed (movement : Input.Movement) : Input.Movement :=
  let vertical := Input.forward movement && Input.backward movement in
  let horizontal := Input.left movement && Input.right movement in
  Input.mkMovement
    (Input.forward movement && negb vertical)
    (Input.backward movement && negb vertical)
    (Input.left movement && negb horizontal)
    (Input.right movement && negb horizontal)
    (Input.boost movement)
    (Input.decelerate movement).

(** No direction key is left once opposed keys have cancelled. *)
Definition noNetDirection (movement : Input.Movement) : bool :=
  eqb (Input.forward movement) (Input.backward movement)
  && eqb (Input.left movement) (Input.right movement).

Module MoreExamples.

(** A rocket exactly at the centre of Mars, in the solar-system scene. *)
Definition insideMars : Game.t :=
  Game.mk Game.landing 0 0 ∅ Game.threeD 0.08
          (Examples.rocketAt (mkVector3 2000 0 0) (mkVector3 0 0 0) 50)
          Examples.earth [Examples.mars] [] "" false.

(** The solar-system scene with the rocket 10 units above Mars, slow. *)
Definition hoveringOverMars : Game.t :=
  Game.mk Game.landing 0 0 ∅ Game.threeD 0.08
          (Examples.rocketAt (mkVector3 2080 0 0) (mkVector3 0 1 0) 50)
          Examples.earth [Examples.mars] [] "" false.

(** The single-planet scene with a rocket climbing past the exit
    threshold. *)
Definition leavingMars : PlanetScene.t :=
  PlanetScene.set_gameState PlanetScene.launching
    (Examples.marsScene
       (Examples.rocketAt (mkVector3 1700 0 0) (mkVector3 30 0 0) 50)).

(** The single-planet scene with the rocket at the planet's centre. *)
Definition centreOfMars : PlanetScene.t :=
  Examples.marsScene (Examples.rocketAt (mkVector3 0 0 0) (mkVector3 1 2 3) 50).

(** A small body close to Earth, and the solar-system scene with the
    rocket between the two: 250 above Earth, 120 above the body. *)
Definition moon : Planet.t :=
  Planet.mk "Moon" (mkVector3 500 0 0) 10 30 2 5 3 false.

Definition betweenEarthAndMoon : Game.t :=
  Game.mk Game.space 0 0 ∅ Game.threeD 0.08
          (Examples.rocketAt (mkVector3 350 0 0) (mkVector3 1 0 0) 50)
          Examples.earth [moon] [] "" false.

(** The single-planet scene one call of [updateGameState] before it comes
    to rest: approaching, two units above the ground, not moving. *)
Definition touchingDown : PlanetScene.t :=
  PlanetScene.set_gameState PlanetScene.approaching
    (Examples.marsScene
       (Examples.rocketAt (mkVector3 562 0 0) (mkVector3 0 0 0) 40)).

End MoreExamples.

(** One step of the scan of [updateHUD] over the planets. *)
Definition hudStep (g : Game.t) (closest : float * Planet.t) (planet : Planet.t)
    : float * Planet.t :=
  let '(closestAltitude, closestPlanet) := closest in
  let altitude := Planet.getAltitude planet (Rocket.position (Game.rocket g)) in
  if altitude <? closestAltitude then (altitude, planet)
  else (closestAltitude, closestPlanet).

(** What the scan of [updateHUD] has established once it has seen the
    bodies [seen]: the body it holds is one of them, at the altitude it
    holds, and the rocket is not lower above any of them. *)
Definition lowestOf (g : Game.t) (seen : list Planet.t)
    (closest : float * Planet.t) : Prop :=
  In (snd closest) seen
  /\ fst closest = altitudeAbove g (snd closest)
  /\ Forall (fun q => (altitudeAbove g q <? fst closest) = false) seen.

(** One step of the scan of [updateRocketOrientation] over the bodies. *)
Definition orientationStep (g : Game.t) (closest : option Planet.t * float)
    (planet : Planet.t) : option Planet.t * float :=
  let '(closestPlanet, closestDistance) := closest in
  let altitude := Planet.getAltitude planet (Rocket.position (Game.rocket g)) in
  if (altitude <? 20) && (altitude <? closestDistance)
  then (Some planet, altitude)
  else (closestPlanet, closestDistance).

(** What the scan of [updateRocketOrientation] has established once it has
    seen the bodies [seen]: the body it holds is one of them, within the
    orientation altitude, and none of them is closer; it holds none only
    if none of them is within the orientation altitude. *)
Definition closestOf (g : Game.t) (seen : list Planet.t)
    (closest : option Planet.t * float) : Prop :=
  match closest with
  | (Some p, d) =>
      In p seen /\ d = altitudeAbove g p /\ (d <? 20) = true
      /\ Forall (fun q => (altitudeAbove g q <? d) = false) seen
  | (None, d) =>
      d = JS.Infinity /\ Forall (fun q => within 20 g q = false) seen
  end.

(** The phase [checkGameState] has reached when it turns to the landings:
    the one it wrote last, or the one it was entered with. *)
Definition phaseBeforeLandings (g : Game.t) : Game.Phase :=
  let leavingEarth :=
    if bool_decide (Game.gameState g = Game.launch) && (200 <? altitudeAbove g (Game.earth g))
    then Game.space else Game.gameState g in
  if bool_decide (leavingEarth = Game.space) && existsb (within 200 g) (Game.planets g)
  then Game.landing else leavingEarth.

(** The value of an axis with two opposed keys: [1] or [-1] when one of
    them is held alone, [0] when both or neither is. *)
Definition axisOf (positive negative : bool) : float :=
  if positive && negb negative then 1
  else if negative && negb positive then -1
  else 0.

(** The unit vector of the direction keys: right is [+x], backward [+z]. *)
Definition netDirection (movement : Input.Movement) : Vector3 :=
  mkVector3 (axisOf (Input.right movement) (Input.left movement))
            0
            (axisOf (Input.backward movement) (Input.forward movement)).

(** Exactly one of the two axes is engaged once opposed keys cancel. *)
Definition singleAxis (movement : Input.Movement) : bool :=
  xorb (eqb (Input.forward movement) (Input.backward movement))
       (eqb (Input.left movement) (Input.right movement)).

(** * Facts about binary64 comparison and multiplication

    The primitive operations are specified by the standard library through
    [Prim2SF]; the facts below are the few order properties the control flow
    of the program relies on. *)

Module FloatFacts.

Lemma SFcompare_Lt_Gt (a b : spec_float) :
  SFcompare a b = Some Lt -> SFcompare b a = Some Gt.
Proof.
  destruct a as [sa|sa| |sa ma ea], b as [sb|sb| |sb mb eb]; simpl;
    try discriminate; try (destruct sa; discriminate);
    try (destruct sb; discriminate);
    try (destruct sa, sb; (discriminate || reflexivity)).
  pose proof (Pos.compare_cont_antisym ma mb Eq) as P; simpl in P.
  destruct sa, sb; try discriminate; try reflexivity;
    rewrite (Z.compare_antisym ea eb);
    destruct (ea ?= eb)%Z; simpl; try discriminate; try reflexivity;
    rewrite <- P; destruct (Pos.compare_cont Eq ma mb); simpl; intros; congruence.
Qed.

Lemma ltb_antisym (a b : float) : (a <? b) = true -> (b <? a) = false.
Proof.
  rewrite !FloatAxioms.ltb_spec. unfold SFltb. intros Hab.
  destruct (SFcompare (Prim2SF a) (Prim2SF b)) as [[]|] eqn:E; try discriminate.
  now rewrite (SFcompare_Lt_Gt _ _ E).
Qed.

Lemma ltb_neq (a b : float) : (a <? b) = true -> (b =? a) = false.
Proof.
  rewrite FloatAxioms.ltb_spec, FloatAxioms.eqb_spec. unfold SFltb, SFeqb. intros Hab.
  destruct (SFcompare (Prim2SF a) (Prim2SF b)) as [[]|] eqn:E; try discriminate.
  now rewrite (SFcompare_Lt_Gt _ _ E).
Qed.

Lemma SFcompare_Lt_trans (a b c : spec_float) :
  SFcompare a b = Some Lt -> SFcompare b c = Some Lt -> SFcompare a c = Some Lt.
Proof.
  destruct a as [sa|sa| |sa ma ea], b as [sb|sb| |sb mb eb], c as [sc|sc| |sc mc ec];
    simpl; try discriminate;
    try (destruct sa; discriminate); try (destruct sb; discriminate);
    try (destruct sc; discriminate);
    try (destruct sa, sb; discriminate); try (destruct sb, sc; discriminate);
    try (destruct sa, sc; (discriminate || reflexivity));
    try (destruct sa, sb, sc; (discriminate || reflexivity)).
  all: change (Pos.compare_cont Eq) with Pos.compare.
  all: destruct sa, sb, sc; try discriminate; try reflexivity.
  all: destruct (Z.compare_spec ea eb), (Z.compare_spec eb ec), (Z.compare_spec ea ec);
    try discriminate; try reflexivity; try lia.
  all: destruct (Pos.compare_spec ma mb), (Pos.compare_spec mb mc),
         (Pos.compare_spec ma mc);
    simpl; try discriminate; try reflexivity; try lia.
Qed.

Lemma ltb_trans (a b c : float) :
  (a <? b) = true -> (b <? c) = true -> (a <? c) = true.
Proof.
  rewrite !FloatAxioms.ltb_spec. unfold SFltb. intros Hab Hbc.
  destruct (SFcompare (Prim2SF a) (Prim2SF b)) as [[]|] eqn:E1; try discriminate.
  destruct (SFcompare (Prim2SF b) (Prim2SF c)) as [[]|] eqn:E2; try discriminate.
  now rewrite (SFcompare_Lt_trans _ _ _ E1 E2).
Qed.

(** An altitude below [lo] is not above [hi] when [lo] is not above [hi]. *)
Lemma ltb_below_not_above (a lo hi : float) :
  (hi <? lo) = false -> (a <? lo) = true -> (hi <? a) = false.
Proof.
  intros Hband Ha. destruct (hi <? a) eqn:Hhi; [|reflexivity].
  now rewrite (ltb_trans _ _ _ Hhi Ha) in Hband.
Qed.

Lemma SFcompare_not_Lt_Lt (a b c : spec_float) :
  a <> S754_nan -> b <> S754_nan ->
  SFcompare a b <> Some Lt -> SFcompare a c = Some Lt -> SFcompare b c = Some Lt.
Proof.
  destruct a as [sa|sa| |sa ma ea], b as [sb|sb| |sb mb eb], c as [sc|sc| |sc mc ec];
    simpl; try congruence;
    try (destruct sa; congruence); try (destruct sb; congruence);
    try (destruct sc; congruence);
    try (destruct sa, sb; congruence); try (destruct sb, sc; congruence);
    try (destruct sa, sc; congruence);
    try (destruct sa, sb, sc; congruence).
  all: change (Pos.compare_cont Eq) with Pos.compare.
  all: destruct sa, sb, sc; try congruence.
  all: destruct (Z.compare_spec ea eb), (Z.compare_spec ea ec), (Z.compare_spec eb ec);
    try congruence; try lia.
  all: destruct (Pos.compare_spec ma mb), (Pos.compare_spec ma mc),
         (Pos.compare_spec mb mc);
    simpl; try congruence; try lia.
Qed.

Lemma not_nan_spec (a : float) :
  PrimFloat.is_nan a = false -> Prim2SF a <> S754_nan.
Proof.
  unfold PrimFloat.is_nan. rewrite FloatAxioms.eqb_spec. unfold SFeqb.
  intros Ha E. rewrite E in Ha. discriminate.
Qed.

(** Whatever is below something is a number. *)
Lemma ltb_not_nan_l (a b : float) : (a <? b) = true -> PrimFloat.is_nan a = false.
Proof.
  unfold PrimFloat.is_nan. rewrite FloatAxioms.ltb_spec, FloatAxioms.eqb_spec.
  unfold SFltb, SFeqb.
  destruct (Prim2SF a) as [sa|sa| |sa ma ea]; simpl; try discriminate; try reflexivity.
  - destruct sa; reflexivity.
  - intros _. change (Pos.compare_cont Eq) with Pos.compare.
    rewrite Z.compare_refl, Pos.compare_refl. now destruct sa.
Qed.

(** Among numbers, [b <= a] and [a < c] give [b < c]. *)
Lemma ltb_false_lt (a b c : float) :
  PrimFloat.is_nan a = false -> PrimFloat.is_nan b = false ->
  (a <? b) = false -> (a <? c) = true -> (b <? c) = true.
Proof.
  intros Ha Hb. rewrite !FloatAxioms.ltb_spec. unfold SFltb. intros Hab Hac.
  destruct (SFcompare (Prim2SF a) (Prim2SF c)) as [[]|] eqn:E; try discriminate.
  rewrite (SFcompare_not_Lt_Lt _ _ _ (not_nan_spec _ Ha) (not_nan_spec _ Hb));
    [reflexivity| |exact E].
  destruct (SFcompare (Prim2SF a) (Prim2SF b)) as [[]|]; congruence.
Qed.

Lemma ltb_not_nan_r (a b : float) : (a <? b) = true -> PrimFloat.is_nan b = false.
Proof.
  unfold PrimFloat.is_nan. rewrite FloatAxioms.ltb_spec, FloatAxioms.eqb_spec.
  unfold SFltb, SFeqb.
  destruct (Prim2SF b) as [sb|sb| |sb mb eb]; simpl; try reflexivity.
  - destruct sb; reflexivity.
  - now destruct (Prim2SF a).
  - intros _. change (Pos.compare_cont Eq) with Pos.compare.
    rewrite Z.compare_refl, Pos.compare_refl. now destruct sb.
Qed.

(** Changing the sign of a rounded value. *)
Definition flip (a : spec_float) : spec_float :=
  match a with
  | S754_zero s => S754_zero (negb s)
  | S754_infinity s => S754_infinity (negb s)
  | S754_nan => S754_nan
  | S754_finite s m e => S754_finite (negb s) m e
  end.

Lemma binary_round_aux_flip (s : bool) (m e : Z) (l : location) :
  binary_round_aux prec emax (negb s) m e l
  = flip (binary_round_aux prec emax s m e l).
Proof.
  unfold binary_round_aux.
  destruct (shr_fexp prec emax m e l) as [mrs' e'].
  destruct (shr_fexp prec emax _ e' loc_Exact) as [mrs'' e''].
  destruct (shr_m mrs''); try reflexivity.
  destruct (e'' <=? emax - prec)%Z; reflexivity.
Qed.

Lemma binary_round_flip (s : bool) (m : positive) (e : Z) :
  binary_round prec emax (negb s) m e = flip (binary_round prec emax s m e).
Proof.
  unfold binary_round. destruct (shl_align _ _ _) as [mz ez].
  apply binary_round_aux_flip.
Qed.

Lemma SFmul_flip (a : spec_float) : SF64mul (flip a) (flip a) = SF64mul a a.
Proof.
  destruct a as [s|s| |s m e]; simpl; try reflexivity; now destruct s.
Qed.

Lemma SFsub_swap_square (a b : spec_float) :
  SF64mul (SF64sub a b) (SF64sub a b) = SF64mul (SF64sub b a) (SF64sub b a).
Proof.
  unfold SF64sub.
  destruct a as [sa|sa| |sa ma ea], b as [sb|sb| |sb mb eb]; simpl; try reflexivity;
    try (destruct sa, sb; reflexivity); try (destruct sa; reflexivity);
    try (destruct sb; reflexivity).
  rewrite (Z.min_comm eb ea).
  set (P := cond_Zopp sa (Zpos (fst (shl_align ma ea (Z.min ea eb))))).
  set (Q := cond_Zopp sb (Zpos (fst (shl_align mb eb (Z.min ea eb))))).
  replace (Q - P)%Z with (- (P - Q))%Z by lia.
  destruct (P - Q)%Z as [|k|k]; simpl; try reflexivity;
    rewrite (binary_round_flip false k); now rewrite SFmul_flip.
Qed.

(** The square of a difference does not depend on its direction. *)
Lemma sub_swap_square (a b : float) : (a - b) * (a - b) = (b - a) * (b - a).
Proof.
  apply Prim2SF_inj. rewrite !mul_spec, !sub_spec. apply SFsub_swap_square.
Qed.

Lemma mul_nan_r (a : float) : a * nan = nan.
Proof.
  apply Prim2SF_inj. rewrite mul_spec.
  change (Prim2SF nan) with S754_nan.
  unfold SF64mul, SFmul. now destruct (Prim2SF a).
Qed.

End FloatFacts.

(** * Gravitation *)

Module PhysicsSpec.

Import Physics.

(** Whenever the measured distance is zero, the force is the [Vector3]
    object, its quotient by the mass is [NaN], and so is every component
    of the acceleration. *)
Lemma applyGravity_at_zero_distance {A B : Type} `{Massive A} `{Massive B}
    (object : A) (planet : B) :
  (distanceTo (position object) (position planet) =? 0) = true ->
  applyGravity object planet = mkVector3 nan nan nan.
Proof.
  intros Hd. unfold applyGravity, calculateGravityForce. rewrite Hd.
  unfold js_div, ToNumber, JS.NaN.
  change (nan / mass object) with (PrimFloat.div nan (mass object)).
  assert (Hn : nan / mass object = nan).
  { apply Prim2SF_inj. rewrite div_spec.
    change (Prim2SF nan) with S754_nan. reflexivity. }
  rewrite Hn. unfold multiplyScalar. now rewrite !FloatFacts.mul_nan_r.
Qed.

(** The length of the vector from one point to another is their distance. *)
Lemma length_subVectors (a b : Vector3) :
  THREE.length (subVectors a b) = distanceTo b a.
Proof.
  unfold THREE.length, distanceTo, distanceToSquared, subVectors. simpl.
  now rewrite (FloatFacts.sub_swap_square (x a) (x b)),
    (FloatFacts.sub_swap_square (y a) (y b)),
    (FloatFacts.sub_swap_square (z a) (z b)).
Qed.

(** At a positive distance [normalize] divides the vector from the object
    to the planet by that distance. *)
Lemma normalize_at_distance (a b : Vector3) :
  (0 <? distanceTo b a) = true ->
  normalize (subVectors a b)
  = multiplyScalar (subVectors a b) (1 / distanceTo b a).
Proof.
  intros Hd. unfold normalize, divideScalar, JS.or, JS.falsy.
  rewrite length_subVectors.
  change (PrimFloat.eqb (distanceTo b a) 0) with (distanceTo b a =? 0).
  now rewrite (FloatFacts.ltb_neq _ _ Hd), (FloatFacts.ltb_not_nan_r _ _ Hd).
Qed.

(** C1 (as the code behaves): for a craft standing at the centre of a body
    the distance is exactly zero, [calculateGravityForce] returns the
    zero [Vector3] object where a number is expected, and [applyGravity]
    returns the vector whose three components are [NaN] instead of the
    zero acceleration. *)
Theorem applyGravity_zero_distance_yields_NaN :
  distanceTo (position Examples.rocketAtCentre) (position Examples.earth) = 0
  /\ calculateGravityForce (mass Examples.rocketAtCentre) (mass Examples.earth) 0
     = JsObject (mkVector3 0 0 0)
  /\ applyGravity Examples.rocketAtCentre Examples.earth = mkVector3 nan nan nan.
Proof. repeat split; reflexivity. Qed.

(** C7: for all masses and every distance [d > 0] the force is the number
    [G * m1 * m2 / (d * d)], and the acceleration of a craft at that
    distance from a body is the normalized vector from the craft to the
    body, which is that vector divided by [d], scaled by
    [force / craft.mass]. *)
Theorem gravity_force_and_acceleration (m1 m2 d : float) :
  (0 <? d) = true ->
  calculateGravityForce m1 m2 d = JsNumber ((G * m1 * m2) / (d * d))
  /\ forall (object : Rocket.t) (planet : Planet.t),
       mass object = m1 -> mass planet = m2 ->
       distanceTo (position object) (position planet) = d ->
       let toPlanet := subVectors (position planet) (position object) in
       normalize toPlanet = multiplyScalar toPlanet (1 / d)
       /\ THREE.length toPlanet = d
       /\ applyGravity object planet
          = multiplyScalar (normalize toPlanet) (((G * m1 * m2) / (d * d)) / m1).
Proof.
  intros Hd. pose proof (FloatFacts.ltb_neq _ _ Hd) as Hz.
  assert (Hf : calculateGravityForce m1 m2 d = JsNumber ((G * m1 * m2) / (d * d))).
  { unfold calculateGravityForce. now rewrite Hz. }
  split; [exact Hf|].
  intros object planet Ho Hp Hdist toPlanet. subst toPlanet.
  split; [|split].
  - rewrite <- Hdist in Hd |- *. now apply normalize_at_distance.
  - rewrite <- Hdist. apply length_subVectors.
  - unfold applyGravity. rewrite Hdist, Ho, Hp, Hf. reflexivity.
Qed.

Lemma gravity_force_and_acceleration_witness :
  (0 <? 500) = true
  /\ calculateGravityForce 1 1000 500 = JsNumber ((G * 1 * 1000) / (500 * 500))
  /\ applyGravity Examples.rocketInSpace Examples.earth
     = multiplyScalar
         (normalize (subVectors (position Examples.earth)
                                (position Examples.rocketInSpace)))
         (((G * 1 * 1000) / (500 * 500)) / 1).
Proof.
  split; [reflexivity|].
  destruct (gravity_force_and_acceleration 1 1000 500 eq_refl) as [Hf Ha].
  split; [exact Hf|].
  apply (Ha Examples.rocketInSpace Examples.earth); reflexivity.
Defined.

(** The pull of Earth on a rocket 500 units away: 0.0004 towards Earth. *)
Example applyGravity_in_space :
  applyGravity Examples.rocketInSpace Examples.earth
  = mkVector3 (-0.00024000000000000001) 0 (-0.00032000000000000003).
Proof. reflexivity. Qed.

(** C8: the gravity handed to the flight model in a tick is the vector
    sum of [applyGravity(rocket, body)] over Earth and every planet, each
    term computed from the rocket and that body alone; with one target it
    is the sum of the two accelerations, and one more body adds exactly
    its own term. *)
Theorem totalGravity_superposition (g : Game.t) :
  Game.totalGravity g
  = sumVectors (applyGravity (Game.rocket g) (Game.earth g))
               (map (applyGravity (Game.rocket g)) (Game.planets g))
  /\ (forall target, Game.planets g = [target] ->
        Game.totalGravity g
        = THREE.add (applyGravity (Game.rocket g) (Game.earth g))
                    (applyGravity (Game.rocket g) target))
  /\ (forall body,
        Game.totalGravity (Game.set_planets (Game.planets g ++ [body]) g)
        = THREE.add (Game.totalGravity g) (applyGravity (Game.rocket g) body)).
Proof.
  unfold Game.totalGravity, sumVectors. repeat split.
  - generalize (applyGravity (Game.rocket g) (Game.earth g)).
    induction (Game.planets g) as [|p ps IH]; intros acc; simpl; [reflexivity|].
    apply IH.
  - intros target ->. reflexivity.
  - intros body. simpl. now rewrite fold_left_app.
Qed.

End PhysicsSpec.


(** * The single-planet scene *)

Module PlanetSceneSpec.

Import PlanetScene.


Lemma updateGameState_frame (s : t) :
  updateGameState s = set_gameState (gameState (updateGameState s)) s.
Proof.
  unfold updateGameState.
  repeat match goal with
         | |- context [if ?c then _ else _] => destruct c
         end; try reflexivity.
  now destruct s.
Qed.


(** The four edges on concrete scenes, and a scene that stays put. *)
Example updateGameState_edges :
  let at_ stage p v := set_gameState stage (Examples.marsScene (Examples.rocketAt p v 50)) in
  gameState (updateGameState
               (at_ approaching (mkVector3 1300 0 0) (mkVector3 (-9) 0 0))) = landing
  /\ gameState (updateGameState
                  (at_ landing (mkVector3 580 0 0) (mkVector3 0 0.5 0))) = landed
  /\ gameState (updateGameState
                  (at_ landed (mkVector3 562 0 0) (mkVector3 6 0 0))) = launching
  /\ gameState (updateGameState
                  (at_ launching (mkVector3 1400 0 0) (mkVector3 20 0 0))) = approaching
  /\ gameState (updateGameState
                  (at_ landing (mkVector3 580 0 0) (mkVector3 6 0 0))) = landing
  /\ gameState (updateGameState
                  (at_ launching (mkVector3 1300 0 0) (mkVector3 20 0 0))) = launching.
Proof. repeat split. Qed.

(** C9: after the transfer the scene's rocket carries the fuel of the
    solar-system rocket and has zero velocity; around Earth it stands at
    distance [radius + 2] from the centre on the 45-degree direction, with
    the surface orientation, gear deployed, and the scene is [landed];
    around any other body it is placed at [radius + 800] on that direction
    and 200 up, facing the planet, and the scene is [approaching]. *)
Theorem transfer_pose {E : Externals} (solarSystemRocket : Rocket.t) (s : t) :
  let s' := transferRocketFromSolarSystem solarSystemRocket s in
  let r := rocket s' in
  let radius := Planet.radius (planet s) in
  let angle := Math_PI * 0.25 in
  Rocket.fuel r = Rocket.fuel solarSystemRocket
  /\ Rocket.velocity r = mkVector3 0 0 0
  /\ planet s' = planet s
  /\ if String.eqb (Planet.name (planet s)) "Earth" then
       Rocket.position r
       = mkVector3 (Math_cos angle * (radius + 2)) 0 (Math_sin angle * (radius + 2))
       /\ Rocket.quaternion r
          = surfaceOrientation (Planet.position (planet s)) (Rocket.position r)
       /\ Rocket.landingGearDeployed r = true
       /\ gameState s' = landed
     else
       Rocket.position r
       = mkVector3 (Math_cos angle * (radius + 800)) 200
                   (Math_sin angle * (radius + 800))
       /\ Rocket.quaternion r
          = lookAt (Rocket.position r) (Planet.position (planet s))
       /\ gameState s' = approaching.
Proof.
  cbv zeta. unfold transferRocketFromSolarSystem.
  destruct (String.eqb (Planet.name (planet s)) "Earth") eqn:Hname; simpl;
    rewrite ?Hname; repeat split.
Qed.

(** The transfer on concrete scenes: around Earth the rocket ends about 2
    units above the surface, around Mars more than 800 units above it. *)
Example transfer_pose_earth :
  let s' := transferRocketFromSolarSystem (E := Examples.externals)
              Examples.arrivingRocket (Examples.earthScene Examples.rocketAtCentre) in
  gameState s' = landed
  /\ Rocket.fuel (rocket s') = 37
  /\ Rocket.velocity (rocket s') = mkVector3 0 0 0
  /\ (1.99 <? Planet.getAltitude (planet s') (Rocket.position (rocket s'))) = true
  /\ (Planet.getAltitude (planet s') (Rocket.position (rocket s')) <? 2.01) = true.
Proof. repeat split. Qed.

Example transfer_pose_mars :
  let s' := transferRocketFromSolarSystem (E := Examples.externals)
              Examples.arrivingRocket (Examples.marsScene Examples.rocketAtCentre) in
  gameState s' = approaching
  /\ Rocket.fuel (rocket s') = 37
  /\ Rocket.velocity (rocket s') = mkVector3 0 0 0
  /\ (800 <? Planet.getAltitude (planet s') (Rocket.position (rocket s'))) = true.
Proof. repeat split. Qed.



(** The enhanced gravity on concrete scenes: no pull at 10 radii; at rest
    1.5 radii from the centre the base gravity is scaled by 1.625. *)
Example enhanced_gravity_far :
  applyEnhancedGravity (E := Examples.externals)
    (Examples.marsScene (Examples.rocketAt (mkVector3 5600 0 0) (mkVector3 1 0 0) 50))
  = mkVector3 0 0 0.
Proof. reflexivity. Qed.

(** On binary64, for a planet of radius 800 and every whole distance from
    0 to 1599, the close-range factor is above 1 and at most 3.5. *)
Example strongGravityMultiplier_sampled :
  forallb
    (fun k : nat =>
       let d := PrimFloat.of_uint63 (Uint63.of_Z (Z.of_nat k)) in
       (1 <? strongGravityMultiplier 800 d) && (strongGravityMultiplier 800 d <=? 3.5))
    (seq 0 1600)
  = true.
Proof. vm_compute. reflexivity. Qed.

Example enhanced_gravity_near :
  let s := Examples.marsScene
             (Examples.rocketAt (mkVector3 840 0 0) (mkVector3 0 0 0) 50) in
  strongGravityMultiplier 560 840 = 1.625
  /\ THREE.x (applyEnhancedGravity (E := Examples.externals) s)
     = THREE.x (Physics.applyGravity (rocket s) (planet s)) * 1.625.
Proof. split; reflexivity. Qed.

End PlanetSceneSpec.

(** * The solar-system scene: view mode *)

Module ViewModeSpec.

Import Game.

Ltac mode_tests :=
  repeat case_bool_decide; try discriminate; try congruence; simpl.

Lemma closestAltitude_set_view (m : ViewMode) (speed : float) (g : t) :
  closestAltitude (set_view m speed g) = closestAltitude g.
Proof. reflexivity. Qed.

(** The view mode after [updateViewMode] is decided by the side of the
    band on which the closest altitude lies. *)
Lemma updateViewMode_by_side (g : t) :
  viewMode (updateViewMode g)
  = match bandSide (closestAltitude g) with
    | BelowBand => threeD
    | AboveBand => twoD
    | InsideBand => viewMode g
    end.
Proof.
  unfold updateViewMode, bandSide.
  destruct (closestAltitude g <? planetaryProximityThreshold) eqn:Hlo.
  - rewrite (FloatFacts.ltb_below_not_above _ planetaryProximityThreshold
               (planetaryProximityThreshold * 1.5) eq_refl Hlo).
    destruct (viewMode g); mode_tests; reflexivity.
  - destruct (planetaryProximityThreshold * 1.5 <? closestAltitude g) eqn:Hhi;
      destruct (viewMode g); mode_tests; reflexivity.
Qed.

(** The scan of [updateViewMode] over the planets ends below the threshold
    as soon as the running minimum or one of the planets is below it. *)
Lemma closest_scan_below (point : Vector3) (threshold : float) (bodies : list Planet.t) :
  forall closest0,
    PrimFloat.is_nan closest0 = false ->
    (closest0 <? threshold) = true
    \/ Exists (fun p => (Planet.getAltitude p point <? threshold) = true) bodies ->
    (fold_left
       (fun closestAltitude planet =>
          let altitude := Planet.getAltitude planet point in
          if altitude <? closestAltitude then altitude else closestAltitude)
       bodies closest0 <? threshold) = true.
Proof.
  induction bodies as [|p bodies IH]; intros closest0 Hnum Hnear; simpl.
  - destruct Hnear as [Hlo|Hex]; [exact Hlo|inversion Hex].
  - destruct (Planet.getAltitude p point <? closest0) eqn:Hcmp.
    + apply IH; [exact (FloatFacts.ltb_not_nan_l _ _ Hcmp)|].
      destruct Hnear as [Hlo|Hex].
      * left. exact (FloatFacts.ltb_trans _ _ _ Hcmp Hlo).
      * inversion Hex as [? ? Hp|? ? Hrest]; subst; [now left|now right].
    + apply IH; [exact Hnum|].
      destruct Hnear as [Hlo|Hex]; [now left|].
      inversion Hex as [? ? Hp|? ? Hrest]; subst; [left|now right].
      exact (FloatFacts.ltb_false_lt _ _ _ (FloatFacts.ltb_not_nan_l _ _ Hp)
               Hnum Hcmp Hp).
Qed.

(** The altitude [updateViewMode] compares is below the threshold whenever
    the altitude above Earth or above one of the planets is. *)
Lemma closestAltitude_any_body (g : t) :
  let earthAltitude := Planet.getAltitude (earth g) (Rocket.position (rocket g)) in
  (earthAltitude <? 300) = true
  \/ (PrimFloat.is_nan earthAltitude = false
      /\ Exists (fun p => (Planet.getAltitude p (Rocket.position (rocket g)) <? 300)
                          = true) (planets g)) ->
  (closestAltitude g <? 300) = true.
Proof.
  cbv zeta. unfold closestAltitude.
  change planetaryProximityThreshold with 300.
  destruct (Planet.getAltitude (earth g) _ <? 300) eqn:Hearth; simpl;
    [trivial|].
  intros [Hlo|[Hnum Hex]]; [discriminate|].
  apply closest_scan_below; [exact Hnum|now right].
Qed.

Lemma viewModeAfter_by_side (mode : ViewMode) (g : t) :
  viewModeAfter mode g
  = match bandSide (closestAltitude g) with
    | BelowBand => threeD
    | AboveBand => twoD
    | InsideBand => mode
    end.
Proof.
  unfold viewModeAfter.
  now rewrite updateViewMode_by_side, closestAltitude_set_view.
Qed.

Lemma bandSide_inside (a : float) :
  (planetaryProximityThreshold <? a) = true ->
  (a <? planetaryProximityThreshold * 1.5) = true ->
  bandSide a = InsideBand.
Proof.
  intros Hlo Hhi. unfold bandSide.
  now rewrite (FloatFacts.ltb_antisym _ _ Hlo), (FloatFacts.ltb_antisym _ _ Hhi).
Qed.

(** The mode agrees with the side on which the altitude was last outside
    the band; before any excursion one toggle may still be due. *)
Definition slack (mode : ViewMode) (last : option BandSide) : nat :=
  match last, mode with
  | Some BelowBand, threeD => 0
  | Some AboveBand, twoD => 0
  | _, _ => 1
  end.

Lemma toggles_bounded_by_crossings (ticks : list t) :
  forall (mode : ViewMode) (last : option BandSide),
    (toggles mode (viewModesAlong mode ticks)
     <= crossings last (map closestAltitude ticks) + slack mode last)%nat.
Proof.
  induction ticks as [|g ticks IH]; intros mode last; simpl; [lia|].
  rewrite viewModeAfter_by_side.
  destruct (bandSide (closestAltitude g)).
  - specialize (IH threeD (Some BelowBand)). simpl in IH.
    destruct mode, last as [[]|]; mode_tests; lia.
  - specialize (IH mode last).
    mode_tests; lia.
  - specialize (IH twoD (Some AboveBand)). simpl in IH.
    destruct mode, last as [[]|]; mode_tests; lia.
Qed.

Lemma no_toggle_inside_band (ticks : list t) (mode : ViewMode) :
  Forall (fun g => bandSide (closestAltitude g) = InsideBand) ticks ->
  viewModesAlong mode ticks = map (fun _ => mode) ticks.
Proof.
  induction 1 as [|g ticks Hg _ IH]; simpl; [reflexivity|].
  rewrite viewModeAfter_by_side, Hg. now rewrite IH.
Qed.

Lemma toggles_constant (mode : ViewMode) (ticks : list t) :
  toggles mode (map (fun _ => mode) ticks) = 0%nat.
Proof. induction ticks; simpl; [reflexivity|]. mode_tests. exact IHticks. Qed.

(** C3: with [T = 300] and [1.5 * T = 450], the view mode is [threeD] after
    any tick whose closest altitude is below [T], which is the case as soon
    as the altitude above Earth or above any planet is; a scene in [threeD]
    turns to [twoD] exactly when the closest altitude exceeds [1.5 * T];
    along ticks whose closest altitude stays strictly inside the band the
    mode never changes; and along any ticks the number of changes is at
    most one more than the number of full crossings of the band. *)
Theorem viewMode_hysteresis :
  planetaryProximityThreshold = 300
  /\ planetaryProximityThreshold * 1.5 = 450
  /\ (forall g, (closestAltitude g <? 300) = true ->
        viewMode (updateViewMode g) = threeD)
  /\ (forall g,
        let earthAltitude :=
          Planet.getAltitude (earth g) (Rocket.position (rocket g)) in
        (earthAltitude <? 300) = true
        \/ (PrimFloat.is_nan earthAltitude = false
            /\ Exists (fun p => (Planet.getAltitude p (Rocket.position (rocket g))
                                 <? 300) = true) (planets g)) ->
        viewMode (updateViewMode g) = threeD)
  /\ (forall g, viewMode g = threeD ->
        (viewMode (updateViewMode g) = twoD <-> (450 <? closestAltitude g) = true))
  /\ (forall mode ticks,
        Forall (fun g => (300 <? closestAltitude g) = true
                         /\ (closestAltitude g <? 450) = true) ticks ->
        viewModesAlong mode ticks = map (fun _ => mode) ticks
        /\ toggles mode (viewModesAlong mode ticks) = 0%nat)
  /\ (forall mode ticks,
        (toggles mode (viewModesAlong mode ticks)
         <= S (crossings None (map closestAltitude ticks)))%nat).
Proof.
  assert (Hbelow : forall g, (closestAltitude g <? 300) = true ->
                            viewMode (updateViewMode g) = threeD).
  { intros g Hlo. rewrite updateViewMode_by_side. unfold bandSide.
    change planetaryProximityThreshold with 300. now rewrite Hlo. }
  split; [reflexivity|]. split; [reflexivity|].
  split; [exact Hbelow|]. split; [|split; [|split]].
  - intros g earthAltitude Hnear. apply Hbelow.
    now apply closestAltitude_any_body.
  - intros g Hmode. rewrite updateViewMode_by_side. unfold bandSide.
    change (planetaryProximityThreshold * 1.5) with 450.
    change planetaryProximityThreshold with 300.
    split.
    + destruct (closestAltitude g <? 300);
        destruct (450 <? closestAltitude g); congruence.
    + intros Hhi. rewrite Hhi.
      destruct (closestAltitude g <? 300) eqn:Hlo; [|reflexivity].
      now rewrite (FloatFacts.ltb_below_not_above _ 300 450 eq_refl Hlo) in Hhi.
  - intros mode ticks Hband.
    assert (Hin : Forall (fun g => bandSide (closestAltitude g) = InsideBand) ticks).
    { eapply Forall_impl; [exact Hband|]. intros g [Hlo Hhi].
      now apply bandSide_inside. }
    split; [now apply no_toggle_inside_band|].
    rewrite no_toggle_inside_band by exact Hin. apply toggles_constant.
  - intros mode ticks.
    pose proof (toggles_bounded_by_crossings ticks mode None) as Hb.
    simpl in Hb. destruct mode; simpl in Hb; lia.
Qed.

(** A rocket hovering around the threshold and then leaving: the mode
    changes when the altitude first drops below 300 and when it exceeds
    450, and at no other tick. *)
Example viewMode_hysteresis_run :
  viewModesAlong twoD
    (map Examples.cruising [310; 290; 310; 290; 440; 460; 440; 310])
  = [twoD; threeD; threeD; threeD; threeD; twoD; twoD; twoD].
Proof. reflexivity. Qed.

End ViewModeSpec.

(** * The solar-system scene: landing, game over and respawn *)

Module GameSpec.

Import Game.






(** C2 fails on the code: the rocket touches down on Mars with an empty
    tank; the same [checkGameState] schedules the respawn and ends the game
    (out of fuel); when the callback fires the phase is [launch] again and
    the rocket is back at its launch pose with a full tank. *)
Lemma stale_respawn_counterexample :
  let g1 := checkGameState Examples.touchdownOnMars in
  let g2 := fireTimer (E := Examples.externals) g1 in
  gameState g1 = gameOver
  /\ gameOverText g1 = "Out of fuel!"
  /\ timers g1 = [Respawn]
  /\ gameState g2 = launch
  /\ Rocket.fuel (rocket g1) = 0
  /\ Rocket.fuel (rocket g2) = 100
  /\ Rocket.position (rocket g2) = mkVector3 0 102 0
  /\ ~ staleRespawnIgnored (E := Examples.externals).
Proof.
  repeat split; try (vm_compute; reflexivity).
  intros Hclaim.
  destruct (Hclaim (checkGameState Examples.touchdownOnMars)) as [Hphase _].
  - vm_compute. reflexivity.
  - vm_compute in Hphase. discriminate.
Qed.

(** C2, amended: a successful landing on a planet not visited before
    schedules the respawn; a game over does not cancel what is pending;
    when the respawn fires, in whatever phase, the rocket is reset and put
    back on Earth and the phase becomes [launch]; so a landing followed by
    a game over and then by the callback ends in the [launch] phase with
    the rocket reset. *)
Theorem respawn_fires_after_game_over {E : Externals} :
  (forall planet g,
     Planet.name planet ∉ visitedPlanets g ->
     timers (onLandingSuccess planet g) = timers g ++ [Respawn])
  /\ (forall message g,
        gameState (onGameOver message g) = gameOver
        /\ timers (onGameOver message g) = timers g)
  /\ (forall g rest,
        timers g = Respawn :: rest ->
        gameState (fireTimer g) = launch
        /\ rocket (fireTimer g)
           = Planet.orientRocketOnSurface (earth g) (Rocket.reset (rocket g))
        /\ timers (fireTimer g) = rest)
  /\ (forall planet message g,
        Planet.name planet ∉ visitedPlanets g -> timers g = [] ->
        let g1 := onGameOver message (onLandingSuccess planet g) in
        gameState g1 = gameOver
        /\ gameState (fireTimer g1) = launch
        /\ rocket (fireTimer g1)
           = Planet.orientRocketOnSurface (earth g) (Rocket.reset (rocket g))).
Proof.
  assert (Hschedule : forall planet g,
            Planet.name planet ∉ visitedPlanets g ->
            onLandingSuccess planet g
            = setTimeout Respawn
                (set_score (score g + 1000 * Planet.difficulty planet
                            + Rocket.fuel (rocket g) * 10)
                   (set_visitedPlanets (visitedPlanets g ∪ {[Planet.name planet]})
                      (set_planetsVisited (planetsVisited g + 1) g)))).
  { intros planet g Hnew. unfold onLandingSuccess.
    rewrite bool_decide_eq_false_2 by exact Hnew. reflexivity. }
  split; [|split; [|split]].
  - intros planet g Hnew. now rewrite Hschedule.
  - intros message g. split; reflexivity.
  - intros g rest Hpending. unfold fireTimer. rewrite Hpending.
    repeat split.
  - intros planet message g Hnew Hnone. cbv zeta.
    rewrite (Hschedule planet g Hnew). unfold fireTimer. simpl.
    rewrite Hnone. repeat split.
Qed.


End GameSpec.

(** * Landing classification *)

Module LandingSpec.

Lemma inContact_checkLanding (p : Planet.t) (r r' : Rocket.t) :
  inContact (snd (Planet.checkLanding p r)) r' <-> inContact p r'.
Proof.
  unfold inContact, Planet.checkLanding.
  repeat match goal with
         | |- context [if ?c then _ else _] => destruct c
         end; reflexivity.
Qed.

Lemma Forall_inContact_checkLanding (p : Planet.t) (r : Rocket.t) (ticks : list Rocket.t) :
  Forall (inContact p) ticks ->
  Forall (inContact (snd (Planet.checkLanding p r))) ticks.
Proof.
  intros Hall. eapply Forall_impl; [exact Hall|].
  intros r' Hr'. now apply inContact_checkLanding.
Qed.

(** In contact with the flag set, [checkLanding] reports nothing and keeps
    the flag. *)
Lemma checkLanding_resolved (p : Planet.t) (r : Rocket.t) :
  Planet.landingResolved p = true -> inContact p r ->
  Planet.checkLanding p r = (LandingNone, p).
Proof.
  unfold inContact, Planet.checkLanding. intros Hflag Hr. now rewrite Hr, Hflag.
Qed.

(** In contact with the flag clear, [checkLanding] reports a success or a
    crash and sets the flag. *)
Lemma checkLanding_fires (p : Planet.t) (r : Rocket.t) :
  Planet.landingResolved p = false -> inContact p r ->
  isOutcome (fst (Planet.checkLanding p r)) = true
  /\ Planet.landingResolved (snd (Planet.checkLanding p r)) = true.
Proof.
  unfold inContact, Planet.checkLanding. intros Hflag Hr. rewrite Hr, Hflag.
  now destruct (Rocket.getSpeed r <? Planet.safeLandingSpeed p).
Qed.

(** Out of contact, [checkLanding] reports nothing and clears the flag. *)
Lemma checkLanding_rearms (p : Planet.t) (r : Rocket.t) :
  ~ inContact p r ->
  fst (Planet.checkLanding p r) = LandingNone
  /\ Planet.landingResolved (snd (Planet.checkLanding p r)) = false.
Proof.
  unfold inContact, Planet.checkLanding. intros Hr.
  destruct (_ <? Planet.contactThreshold p); [contradiction|]. now split.
Qed.

Lemma outcomes_cons (result : LandingResult) (results : list LandingResult) :
  outcomes (result :: results)
  = ((if isOutcome result then 1 else 0) + outcomes results)%nat.
Proof.
  unfold outcomes. rewrite filter_cons.
  destruct (isOutcome result); case_decide; simpl; congruence.
Qed.

Lemma silent_while_resolved (ticks : list Rocket.t) :
  forall p, Planet.landingResolved p = true ->
    Forall (inContact p) ticks ->
    outcomes (landingResultsAlong p ticks) = 0%nat.
Proof.
  induction ticks as [|r ticks IH]; intros p Hflag Hall; [reflexivity|].
  inversion Hall as [|? ? Hr Hrest]; subst. simpl.
  rewrite (checkLanding_resolved p r Hflag Hr). simpl.
  rewrite outcomes_cons. simpl. now apply IH.
Qed.

Lemma at_most_one_outcome (ticks : list Rocket.t) (p : Planet.t) :
  Forall (inContact p) ticks ->
  (outcomes (landingResultsAlong p ticks) <= 1)%nat.
Proof.
  destruct ticks as [|r ticks]; intros Hall; [unfold outcomes; simpl; lia|].
  inversion Hall as [|? ? Hr Hrest]; subst. simpl. rewrite outcomes_cons.
  destruct (Planet.landingResolved p) eqn:Hflag.
  - rewrite (checkLanding_resolved p r Hflag Hr). simpl.
    rewrite (silent_while_resolved ticks p Hflag Hrest). lia.
  - destruct (checkLanding_fires p r Hflag Hr) as [_ Hset].
    rewrite (silent_while_resolved ticks _ Hset)
      by now apply Forall_inContact_checkLanding.
    destruct (isOutcome _); lia.
Qed.

(** The scene writes one console line for every success or crash its
    planet reports, and none otherwise. *)
Lemma console_checkLandingAlong (ticks : list Rocket.t) :
  forall s : PlanetScene.t,
    List.length (PlanetScene.console (checkLandingAlong s ticks))
    = (List.length (PlanetScene.console s)
       + outcomes (landingResultsAlong (PlanetScene.planet s) ticks))%nat
    /\ List.length (PlanetScene.timers (checkLandingAlong s ticks))
       <= (List.length (PlanetScene.timers s)
           + outcomes (landingResultsAlong (PlanetScene.planet s) ticks))%nat.
Proof.
  induction ticks as [|r ticks IH]; intros s; simpl.
  - unfold outcomes. simpl. lia.
  - rewrite outcomes_cons.
    destruct (IH (PlanetScene.checkLanding (PlanetScene.set_rocket r s))) as [IHc IHt].
    rewrite IHc. clear IHc.
    assert (Hs : PlanetScene.planet (PlanetScene.checkLanding (PlanetScene.set_rocket r s))
                 = snd (Planet.checkLanding (PlanetScene.planet s) r)).
    { unfold PlanetScene.checkLanding. simpl.
      destruct (Planet.checkLanding (PlanetScene.planet s) r) as [[] p']; reflexivity. }
    rewrite Hs in *.
    unfold PlanetScene.checkLanding in *. simpl in *.
    destruct (Planet.checkLanding (PlanetScene.planet s) r) as [[] p']; simpl in *;
      rewrite ?length_app in *; simpl in *; lia.
Qed.

(** C4: while the rocket stays within the contact threshold, tick after
    tick, [planet.checkLanding] reports a success or a crash at most once
    and the scene's [checkLanding] invokes a handler (one console line) at
    most once; once the outcome is resolved nothing is reported for the
    rest of the episode; and a tick out of contact clears the flag, after
    which the next contact reports again. *)
Theorem landing_fires_once_per_contact (s : PlanetScene.t) (ticks : list Rocket.t) :
  Forall (inContact (PlanetScene.planet s)) ticks ->
  (outcomes (landingResultsAlong (PlanetScene.planet s) ticks) <= 1)%nat
  /\ (List.length (PlanetScene.console (checkLandingAlong s ticks))
      <= S (List.length (PlanetScene.console s)))%nat
  /\ (Planet.landingResolved (PlanetScene.planet s) = true ->
      outcomes (landingResultsAlong (PlanetScene.planet s) ticks) = 0%nat
      /\ PlanetScene.console (checkLandingAlong s ticks) = PlanetScene.console s)
  /\ (forall r r',
        ~ inContact (PlanetScene.planet s) r -> inContact (PlanetScene.planet s) r' ->
        landingResultsAlong (PlanetScene.planet s) [r; r']
        = [LandingNone; fst (Planet.checkLanding
                               (Planet.set_landingResolved false (PlanetScene.planet s)) r')]
        /\ isOutcome (fst (Planet.checkLanding
                             (Planet.set_landingResolved false (PlanetScene.planet s)) r'))
           = true).
Proof.
  intros Hall.
  pose proof (at_most_one_outcome ticks _ Hall) as Hone.
  destruct (console_checkLandingAlong ticks s) as [Hconsole _].
  split; [exact Hone|]. split; [lia|]. split.
  - intros Hflag.
    pose proof (silent_while_resolved ticks _ Hflag Hall) as Hzero.
    split; [exact Hzero|].
    clear Hone Hconsole Hzero. revert s Hall Hflag.
    induction ticks as [|r ticks IH]; intros s Hall Hflag; [reflexivity|].
    inversion Hall as [|? ? Hr Hrest]; subst. simpl.
    assert (Hstep : PlanetScene.checkLanding (PlanetScene.set_rocket r s)
                    = PlanetScene.set_planet (PlanetScene.planet s)
                        (PlanetScene.set_rocket r s)).
    { unfold PlanetScene.checkLanding. simpl.
      now rewrite (checkLanding_resolved _ r Hflag Hr). }
    rewrite Hstep. now rewrite IH.
  - intros r r' Hout Hin. simpl.
    assert (Hp : Planet.checkLanding (PlanetScene.planet s) r
                 = (LandingNone, Planet.set_landingResolved false (PlanetScene.planet s))).
    { unfold inContact in Hout. unfold Planet.checkLanding.
      destruct (_ <? Planet.contactThreshold _); [contradiction|reflexivity]. }
    rewrite Hp. simpl. split; [reflexivity|].
    apply checkLanding_fires; [reflexivity|exact Hin].
Qed.

Lemma landing_fires_once_per_contact_witness :
  Forall (inContact Examples.marsClose) Examples.settling
  /\ landingResultsAlong Examples.marsClose Examples.settling
     = [LandingSuccess; LandingNone; LandingNone]
  /\ (outcomes (landingResultsAlong Examples.marsClose Examples.settling) <= 1)%nat.
Proof.
  assert (Hall : Forall (inContact Examples.marsClose) Examples.settling).
  { repeat constructor. }
  split; [exact Hall|]. split; [reflexivity|].
  exact (proj1 (landing_fires_once_per_contact
                  (Examples.marsScene Examples.rocketAtCentre) Examples.settling Hall)).
Defined.

End LandingSpec.

(** * Further facts about binary64 arithmetic *)

Module FloatArith.

Lemma SFadd_comm (a b : spec_float) : SF64add a b = SF64add b a.
Proof.
  unfold SF64add.
  destruct a as [sa|sa| |sa ma ea], b as [sb|sb| |sb mb eb]; simpl; try reflexivity;
    try (destruct sa, sb; reflexivity).
  now rewrite (Z.min_comm eb ea), Z.add_comm.
Qed.

Lemma add_comm (a b : float) : a + b = b + a.
Proof. apply Prim2SF_inj. rewrite !add_spec. apply SFadd_comm. Qed.

Lemma add_nan_l (a : float) : nan + a = nan.
Proof.
  apply Prim2SF_inj. rewrite add_spec. change (Prim2SF nan) with S754_nan.
  reflexivity.
Qed.

Lemma add_nan_r (a : float) : a + nan = nan.
Proof. now rewrite add_comm, add_nan_l. Qed.

Lemma mul_nan_l (a : float) : nan * a = nan.
Proof.
  apply Prim2SF_inj. rewrite mul_spec. change (Prim2SF nan) with S754_nan.
  reflexivity.
Qed.

(** Nothing is below itself. *)
Lemma ltb_irrefl (a : float) : (a <? a) = false.
Proof.
  destruct (a <? a) eqn:Ha; [|reflexivity].
  now rewrite (FloatFacts.ltb_antisym _ _ Ha) in Ha.
Qed.


(** Two strict bounds that cross exclude each other. *)
Lemma ltb_between_absurd (a lo hi : float) :
  (hi <? lo) = false -> (a <? lo) = true -> (hi <? a) = true -> False.
Proof.
  intros Hband Hlo Hhi.
  now rewrite (FloatFacts.ltb_below_not_above _ _ _ Hband Hlo) in Hhi.
Qed.

End FloatArith.

(** * Gravitation and collision: further properties *)

Module PhysicsMore.

Import Physics.

Lemma distanceTo_sym (a b : Vector3) : distanceTo a b = distanceTo b a.
Proof.
  unfold distanceTo, distanceToSquared. cbv zeta.
  now rewrite (FloatFacts.sub_swap_square (x a) (x b)),
    (FloatFacts.sub_swap_square (y a) (y b)),
    (FloatFacts.sub_swap_square (z a) (z b)).
Qed.

(** X1: [checkCollision] does not depend on the order in which the two
    objects, each with its radius, are given. *)
Theorem checkCollision_symmetric {A B : Type} `{Massive A} `{Massive B}
    (object1 : A) (object2 : B) (radius1 radius2 : float) :
  checkCollision object1 object2 radius1 radius2
  = checkCollision object2 object1 radius2 radius1.
Proof.
  unfold checkCollision. cbv zeta.
  now rewrite distanceTo_sym, FloatArith.add_comm.
Qed.

Lemma add_nanVector_l (v : Vector3) : THREE.add nanVector v = nanVector.
Proof. unfold THREE.add, nanVector. simpl. now rewrite !FloatArith.add_nan_l. Qed.

Lemma add_nanVector_r (v : Vector3) : THREE.add v nanVector = nanVector.
Proof. unfold THREE.add, nanVector. simpl. now rewrite !FloatArith.add_nan_r. Qed.

Lemma multiplyScalar_nanVector (s : float) : multiplyScalar nanVector s = nanVector.
Proof. unfold multiplyScalar, nanVector. simpl. now rewrite !FloatArith.mul_nan_l. Qed.

Lemma fold_add_nanVector {A : Type} (f : A -> Vector3) (l : list A) :
  fold_left (fun total a => THREE.add total (f a)) l nanVector = nanVector.
Proof. induction l as [|a l IH]; simpl; [reflexivity|]. now rewrite add_nanVector_l. Qed.

Lemma fold_add_poisoned {A : Type} (f : A -> Vector3) (l : list A) :
  Exists (fun a => f a = nanVector) l ->
  forall total, fold_left (fun total a => THREE.add total (f a)) l total = nanVector.
Proof.
  induction 1 as [a l Ha|a l _ IH]; intros total; simpl.
  - rewrite Ha, add_nanVector_r. apply fold_add_nanVector.
  - apply IH.
Qed.

Lemma applyGravity_rocket_at_zero_distance (r : Rocket.t) (p : Planet.t) :
  atZeroDistance r p -> applyGravity r p = nanVector.
Proof.
  unfold atZeroDistance. intros Hzero.
  pose proof (PhysicsSpec.applyGravity_at_zero_distance r p) as Hnan.
  exact (Hnan Hzero).
Qed.

(** X2: if the rocket is at measured distance zero from Earth or from any
    one of the planets, the total gravity of the tick has three [NaN]
    components, whatever the other bodies contribute. *)
Theorem totalGravity_poisoned_by_zero_distance (g : Game.t) :
  Exists (atZeroDistance (Game.rocket g)) (bodies g) ->
  Game.totalGravity g = nanVector.
Proof.
  unfold bodies. intros Hzero. unfold Game.totalGravity. cbv zeta.
  inversion Hzero as [? ? Hearth|? ? Hplanet]; subst.
  - rewrite (applyGravity_rocket_at_zero_distance _ _ Hearth).
    apply (fold_add_nanVector (fun planet => applyGravity (Game.rocket g) planet)).
  - apply (fold_add_poisoned (fun planet => applyGravity (Game.rocket g) planet)).
    eapply Exists_impl; [exact Hplanet|].
    intros p Hp. now apply applyGravity_rocket_at_zero_distance.
Qed.

Lemma totalGravity_poisoned_by_zero_distance_witness :
  Exists (atZeroDistance (Game.rocket MoreExamples.insideMars))
         (bodies MoreExamples.insideMars)
  /\ Game.totalGravity MoreExamples.insideMars = nanVector.
Proof.
  assert (Hex : Exists (atZeroDistance (Game.rocket MoreExamples.insideMars))
                       (bodies MoreExamples.insideMars)).
  { apply Exists_cons_tl. apply Exists_cons_hd. reflexivity. }
  split; [exact Hex|].
  exact (totalGravity_poisoned_by_zero_distance MoreExamples.insideMars Hex).
Defined.

(** X3: in the single-planet scene, a rocket at measured distance zero
    from the planet's centre (which is within the gravity range whenever
    six radii is not below zero) gets an enhanced gravity with three [NaN]
    components, drag and multiplier included. *)
Theorem applyEnhancedGravity_at_centre {E : Externals} (s : PlanetScene.t) :
  atZeroDistance (PlanetScene.rocket s) (PlanetScene.planet s) ->
  (Planet.radius (PlanetScene.planet s) * 6 <? 0) = false ->
  PlanetScene.applyEnhancedGravity s = nanVector.
Proof.
  intros Hzero Hrange. unfold PlanetScene.applyEnhancedGravity. cbv zeta.
  rewrite (applyGravity_rocket_at_zero_distance _ _ Hzero).
  assert (Hd : distanceTo (Rocket.position (PlanetScene.rocket s))
                          (Planet.position (PlanetScene.planet s)) = 0
               \/ distanceTo (Rocket.position (PlanetScene.rocket s))
                             (Planet.position (PlanetScene.planet s)) = (-0)%float).
  { unfold atZeroDistance in Hzero. revert Hzero.
    rewrite FloatAxioms.eqb_spec.
    generalize (distanceTo (Rocket.position (PlanetScene.rocket s))
                           (Planet.position (PlanetScene.planet s))).
    intros d Hd. change (Prim2SF 0) with (S754_zero false) in Hd.
    destruct (Prim2SF d) as [sd|sd| |sd md ed] eqn:Ed; simpl in Hd;
      try discriminate; try (destruct sd; discriminate).
    destruct sd; [right|left]; apply Prim2SF_inj; rewrite Ed; reflexivity. }
  assert (Hfar : (Planet.radius (PlanetScene.planet s) * 6
                  <? distanceTo (Rocket.position (PlanetScene.rocket s))
                                (Planet.position (PlanetScene.planet s))) = false).
  { destruct Hd as [-> | ->]; [exact Hrange|].
    revert Hrange. rewrite !FloatAxioms.ltb_spec.
    change (Prim2SF 0) with (S754_zero false).
    change (Prim2SF (-0)) with (S754_zero true).
    unfold SFltb. now destruct (Prim2SF _) as [[]|[]| |[] ? ?]. }
  rewrite Hfar.
  repeat match goal with
         | |- context [if ?c then _ else _] => destruct c
         end;
    rewrite ?add_nanVector_l; apply multiplyScalar_nanVector.
Qed.

Lemma applyEnhancedGravity_at_centre_witness :
  atZeroDistance (PlanetScene.rocket MoreExamples.centreOfMars)
                 (PlanetScene.planet MoreExamples.centreOfMars)
  /\ PlanetScene.applyEnhancedGravity (E := Examples.externals)
       MoreExamples.centreOfMars = nanVector.
Proof.
  split; [reflexivity|].
  apply (applyEnhancedGravity_at_centre (E := Examples.externals)
           MoreExamples.centreOfMars); reflexivity.
Defined.



Lemma eulerStep_lost (object : Rocket.t) (step : Vector3 * float) :
  Rocket.velocity object = nanVector -> Rocket.position object = nanVector ->
  Rocket.velocity (eulerStep object step) = nanVector
  /\ Rocket.position (eulerStep object step) = nanVector.
Proof.
  destruct step as [acceleration deltaTime]. intros Hv Hp.
  unfold eulerStep, updatePosition, updateVelocity. simpl. rewrite Hv, Hp. simpl.
  unfold nanVector. now rewrite !FloatArith.add_nan_l.
Qed.

(** X21: under the integrator of utils/Physics.js, one step with an
    acceleration of three [NaN] components, such as [applyGravity] gives at
    distance zero, leaves the velocity and the position with three [NaN]
    components, and they stay so under every later step, whatever the
    accelerations and time steps. *)
Theorem integration_never_recovers_from_NaN (object : Rocket.t) (deltaTime : float)
    (later : list (Vector3 * float)) :
  let lost := fold_left eulerStep later (eulerStep object (nanVector, deltaTime)) in
  Rocket.velocity lost = nanVector /\ Rocket.position lost = nanVector.
Proof.
  cbv zeta.
  assert (Hfirst : Rocket.velocity (eulerStep object (nanVector, deltaTime)) = nanVector
                   /\ Rocket.position (eulerStep object (nanVector, deltaTime))
                      = nanVector).
  { unfold eulerStep, updatePosition, updateVelocity, nanVector. simpl.
    repeat first [ rewrite FloatArith.mul_nan_l | rewrite FloatArith.add_nan_r ].
    now split. }
  revert Hfirst. generalize (eulerStep object (nanVector, deltaTime)).
  induction later as [|step later IH]; intros o [Hv Hp]; simpl; [now split|].
  apply IH. now apply eulerStep_lost.
Qed.

(** One step of a rocket at rest 500 units from Earth under Earth's pull. *)
Example eulerStep_in_space :
  Rocket.velocity
    (eulerStep Examples.rocketInSpace
       (applyGravity Examples.rocketInSpace Examples.earth, 0.5))
  = mkVector3 (-0.00012) 0 (-0.00016000000000000001).
Proof. reflexivity. Qed.

End PhysicsMore.

(** * The solar-system scene: further properties *)

Module GameMore.

Import Game.

(** Decide the tests on a phase that is known. *)
Ltac phase_tests :=
  repeat first [ rewrite bool_decide_eq_true_2 by reflexivity
               | rewrite bool_decide_eq_false_2 by discriminate ];
  simpl.

(** A scan that raises a flag for every body below [limit] ends with the
    flag raised exactly if it was raised before or some body is below. *)
Lemma scan_any (limit : float) (g : t) (ps : list Planet.t) :
  forall start : bool,
    fold_left
      (fun (flag : bool) planet =>
         let altitude := Planet.getAltitude planet (Rocket.position (rocket g)) in
         if altitude <? limit then true else flag)
      ps start
    = start || existsb (within limit g) ps.
Proof.
  induction ps as [|p ps IH]; intros start; simpl.
  - now rewrite orb_false_r.
  - rewrite IH. unfold within at 2, altitudeAbove.
    destruct (Planet.getAltitude p (Rocket.position (rocket g)) <? limit);
      destruct start; reflexivity.
Qed.

Lemma within_weaken (lo hi : float) (g : t) (ps : list Planet.t) :
  (lo <? hi) = true ->
  existsb (within lo g) ps = true -> existsb (within hi g) ps = true.
Proof.
  intros Hlh. rewrite !existsb_exists. intros (p & Hin & Hp).
  exists p. split; [exact Hin|]. unfold within in *.
  exact (FloatFacts.ltb_trans _ _ _ Hp Hlh).
Qed.

(** X5: [updateLandingGearDeployment] leaves the gear deployed exactly if
    the rocket is less than 100 above Earth or above one of the planets,
    touches nothing but the gear, and running it again changes nothing. *)
Theorem landing_gear_follows_proximity (g : t) :
  updateLandingGearDeployment g
  = set_rocket
      (Rocket.set_landingGearDeployed (existsb (within 100 g) (bodies g)) (rocket g)) g
  /\ updateLandingGearDeployment (updateLandingGearDeployment g)
     = updateLandingGearDeployment g.
Proof.
  assert (Hgear : forall h,
            updateLandingGearDeployment h
            = set_rocket
                (Rocket.set_landingGearDeployed
                   (existsb (within 100 h) (bodies h)) (rocket h)) h).
  { intros h. unfold updateLandingGearDeployment. cbv zeta.
    rewrite scan_any. unfold bodies. simpl. unfold within at 2, altitudeAbove.
    destruct (Planet.getAltitude (earth h) (Rocket.position (rocket h)) <? 100); simpl;
      [reflexivity|].
    now destruct (existsb (within 100 h) (planets h)). }
  split; [apply Hgear|].
  rewrite (Hgear (updateLandingGearDeployment g)), (Hgear g). reflexivity.
Qed.

(** X6: the flag [nearPlanet] of [update] is raised exactly if the rocket
    is less than 300 above Earth or above one of the planets, although the
    planets are looked at only when Earth is not near; and in a scene in
    which [updateLandingGearDeployment] deploys the gear the flag is
    raised. *)
Theorem nearPlanet_any_body (g : t) :
  nearPlanet g = existsb (within 300 g) (bodies g)
  /\ (Rocket.landingGearDeployed (rocket (updateLandingGearDeployment g)) = true ->
      nearPlanet g = true).
Proof.
  assert (Hnear : nearPlanet g = existsb (within 300 g) (bodies g)).
  { unfold nearPlanet, bodies. cbv zeta. simpl. unfold within at 1, altitudeAbove.
    destruct (Planet.getAltitude (earth g) (Rocket.position (rocket g)) <? 300);
      simpl; [reflexivity|].
    now rewrite scan_any. }
  split; [exact Hnear|].
  rewrite Hnear. unfold updateLandingGearDeployment. cbv zeta. rewrite scan_any.
  assert (Hall : (if Planet.getAltitude (earth g) (Rocket.position (rocket g)) <? 100
                  then true else false)
                 || existsb (within 100 g) (planets g)
                 = existsb (within 100 g) (bodies g)).
  { unfold bodies. simpl. unfold within at 2, altitudeAbove.
    now destruct (Planet.getAltitude (earth g) (Rocket.position (rocket g)) <? 100). }
  rewrite Hall.
  destruct (existsb (within 100 g) (bodies g)) eqn:Hclose; simpl; [|discriminate].
  intros _. exact (within_weaken 100 300 g (bodies g) eq_refl Hclose).
Qed.

Lemma gameState_onLandingSuccess (planet : Planet.t) (g : t) :
  gameState (onLandingSuccess planet g) = gameState g.
Proof. unfold onLandingSuccess. now destruct (negb _). Qed.

Lemma gameState_dispatchLanding (result : LandingResult) (planet : Planet.t) (g : t) :
  gameState (dispatchLanding result planet g) = gameOver
  \/ gameState (dispatchLanding result planet g) = gameState g.
Proof.
  destruct result; simpl; [now right| |now left].
  right. apply gameState_onLandingSuccess.
Qed.

Lemma gameState_checkPlanetLandings (g : t) :
  gameState (checkPlanetLandings g) = gameOver
  \/ gameState (checkPlanetLandings g) = gameState g.
Proof.
  unfold checkPlanetLandings.
  assert (Hfold : forall ps acc g0,
    let g' := fst (fold_left
      (fun '(g, checked) planet =>
         let '(landingResult, planet') := Planet.checkLanding planet (rocket g) in
         (dispatchLanding landingResult planet' g, checked ++ [planet']))
      ps (g0, acc)) in
    gameState g' = gameOver \/ gameState g' = gameState g0).
  { induction ps as [|p ps IH]; intros acc g0; simpl; [now right|].
    destruct (Planet.checkLanding p (rocket g0)) as [result p'].
    destruct (IH (acc ++ [p']) (dispatchLanding result p' g0)) as [Hover|Hsame];
      [now left|].
    rewrite Hsame. apply gameState_dispatchLanding. }
  specialize (Hfold (planets g) [] g). simpl in Hfold.
  destruct (fold_left _ (planets g) (g, [])) as [g' planets'].
  exact Hfold.
Qed.

(** The scan of [checkGameState] for the closest planet ends below the
    limit exactly if one of the planets is below it. *)
Lemma closest_planet_scan (limit : float) (g : t) (ps : list Planet.t) :
  forall closest0,
    PrimFloat.is_nan closest0 = false ->
    (fold_left
       (fun closestPlanetAltitude planet =>
          let altitude := Planet.getAltitude planet (Rocket.position (rocket g)) in
          if altitude <? closestPlanetAltitude then altitude
          else closestPlanetAltitude)
       ps closest0 <? limit)
    = (closest0 <? limit) || existsb (within limit g) ps.
Proof.
  induction ps as [|p ps IH]; intros closest0 Hnum; simpl.
  - now rewrite orb_false_r.
  - change (within limit g p)
      with (Planet.getAltitude p (Rocket.position (rocket g)) <? limit).
    set (altitude := Planet.getAltitude p (Rocket.position (rocket g))).
    destruct (altitude <? closest0) eqn:Hcmp.
    + rewrite IH by exact (FloatFacts.ltb_not_nan_l _ _ Hcmp).
      destruct (closest0 <? limit) eqn:Hlo; [|now rewrite orb_assoc, orb_false_l].
      now rewrite (FloatFacts.ltb_trans _ _ _ Hcmp Hlo).
    + rewrite IH by exact Hnum.
      destruct (closest0 <? limit) eqn:Hlo; [reflexivity|]. simpl.
      destruct (altitude <? limit) eqn:Ha; [|reflexivity].
      now rewrite (FloatFacts.ltb_false_lt _ _ _ (FloatFacts.ltb_not_nan_l _ _ Ha)
                     Hnum Hcmp Ha) in Hlo.
Qed.

(** After [checkGameState] the game is over or the scene is in the phase
    reached before the landings were evaluated. *)
Lemma checkGameState_phase (g : t) :
  gameState (checkGameState g) = gameOver
  \/ gameState (checkGameState g) = phaseBeforeLandings g.
Proof.
  unfold checkGameState.
  destruct (Planet.checkLanding _ _) as [earthLandingResult earth'].
  match goal with
  | |- context [if ?c then onGameOver _ _ else _] => destruct c
  end; [now left|].
  match goal with
  | |- context [checkPlanetLandings ?h] =>
      destruct (gameState_checkPlanetLandings h) as [Hover|Hsame]
  end; [now left|].
  rewrite Hsame. clear Hsame.
  match goal with
  | |- context [dispatchLanding ?r ?p ?h] =>
      destruct (gameState_dispatchLanding r p h) as [Hover|Hsame]
  end; [now left|].
  rewrite Hsame. clear Hsame. right. simpl.
  unfold phaseBeforeLandings, altitudeAbove. cbv zeta.
  destruct (bool_decide (gameState g = launch)
            && (200 <? Planet.getAltitude (earth g) (Rocket.position (rocket g))));
    simpl; rewrite (closest_planet_scan 200) by reflexivity;
    change (JS.Infinity <? 200) with false; simpl;
    match goal with
    | |- context [if ?c then _ else _] => destruct c
    end; reflexivity.
Qed.

Lemma phaseBeforeLandings_monotone (g : t) :
  (phaseRank (gameState g) <= phaseRank (phaseBeforeLandings g))%nat.
Proof.
  unfold phaseBeforeLandings. cbv zeta.
  destruct (gameState g); phase_tests;
    repeat match goal with
           | |- context [if ?c then _ else _] => destruct c; phase_tests
           end; lia.
Qed.

(** X7: [checkGameState] never moves the phase backwards in the order
    launch, space, landing, game over: a finished game stays finished, and
    only a scene in the launch phase can be in it afterwards. *)
Theorem checkGameState_phase_monotone (g : t) :
  (phaseRank (gameState g) <= phaseRank (gameState (checkGameState g)))%nat
  /\ (gameState g = gameOver -> gameState (checkGameState g) = gameOver)
  /\ (gameState (checkGameState g) = launch -> gameState g = launch).
Proof.
  assert (Hmono : (phaseRank (gameState g)
                   <= phaseRank (gameState (checkGameState g)))%nat).
  { destruct (checkGameState_phase g) as [-> | ->].
    - destruct (gameState g); simpl; lia.
    - apply phaseBeforeLandings_monotone. }
  split; [exact Hmono|]. split.
  - intros Hover. rewrite Hover in Hmono.
    destruct (gameState (checkGameState g)); simpl in Hmono; (reflexivity || lia).
  - intros Hlaunch. rewrite Hlaunch in Hmono.
    destruct (gameState g); simpl in Hmono; (reflexivity || lia).
Qed.

(** X8: from the space phase, [checkGameState] ends in the landing phase
    exactly if one of the planets is less than 200 below the rocket, and
    stays in space otherwise, unless the game ends in the same call; the
    altitude above Earth plays no part in it. *)
Theorem landing_phase_by_planets_only (g : t) :
  gameState g = space ->
  gameState (checkGameState g) = gameOver
  \/ gameState (checkGameState g)
     = if existsb (within 200 g) (planets g) then landing else space.
Proof.
  intros Hspace.
  destruct (checkGameState_phase g) as [Hover|Hphase]; [now left|].
  right. rewrite Hphase. unfold phaseBeforeLandings. cbv zeta. rewrite Hspace.
  simpl. now destruct (existsb (within 200 g) (planets g)).
Qed.

Lemma landing_phase_by_planets_only_witness :
  gameState (Examples.cruising 50) = space
  /\ (altitudeAbove (Examples.cruising 50) (earth (Examples.cruising 50)) <? 200) = true
  /\ gameState (checkGameState (Examples.cruising 50)) = space.
Proof.
  split; [reflexivity|]. split; [reflexivity|].
  destruct (landing_phase_by_planets_only (Examples.cruising 50) eq_refl)
    as [Hover|Hphase].
  - vm_compute in Hover. discriminate.
  - exact Hphase.
Defined.

(** X9: a landing on a body whose name is already in the visited set
    changes nothing; so of two successive landings on bodies of the same
    name only the first one scores and schedules a respawn. *)
Theorem onLandingSuccess_once_per_name (planet planet' : Planet.t) (g : t) :
  Planet.name planet' = Planet.name planet ->
  onLandingSuccess planet' (onLandingSuccess planet g) = onLandingSuccess planet g
  /\ (List.length (timers (onLandingSuccess planet' (onLandingSuccess planet g)))
      <= S (List.length (timers g)))%nat.
Proof.
  intros Hname.
  assert (Hsecond : onLandingSuccess planet' (onLandingSuccess planet g)
                    = onLandingSuccess planet g).
  { unfold onLandingSuccess at 1. rewrite Hname.
    rewrite bool_decide_eq_true_2; [reflexivity|].
    unfold onLandingSuccess. case_bool_decide as Hin; simpl; [exact Hin|].
    set_solver. }
  split; [exact Hsecond|]. rewrite Hsecond.
  unfold onLandingSuccess. destruct (negb _); simpl; [|lia].
  rewrite length_app. simpl. lia.
Qed.

Lemma onLandingSuccess_once_per_name_witness :
  Planet.name Examples.mars = Planet.name Examples.mars
  /\ timers (onLandingSuccess Examples.mars
               (onLandingSuccess Examples.mars Examples.touchdownOnMars))
     = [Respawn].
Proof.
  split; [reflexivity|].
  rewrite (proj1 (onLandingSuccess_once_per_name Examples.mars Examples.mars
                    Examples.touchdownOnMars eq_refl)).
  reflexivity.
Defined.

Lemma fold_left_pointwise {A B : Type} (f f' : A -> B -> A) (l : list B) :
  (forall a b, f a b = f' a b) ->
  forall a, fold_left f l a = fold_left f' l a.
Proof.
  intros Hff'. induction l as [|b l IH]; intros a; simpl; [reflexivity|].
  now rewrite Hff', IH.
Qed.

Lemma orientationTarget_scan (g : t) :
  orientationTarget g = fold_left (orientationStep g) (bodies g) (None, JS.Infinity).
Proof.
  unfold orientationTarget, bodies. cbv zeta. simpl.
  destruct (_ && _); apply fold_left_pointwise; intros [closestPlanet closestDistance] planet;
    reflexivity.
Qed.

Lemma orientationStep_closestOf (g : t) (seen : list Planet.t)
    (closest : option Planet.t * float) (planet : Planet.t) :
  closestOf g seen closest ->
  closestOf g (seen ++ [planet]) (orientationStep g closest planet).
Proof.
  destruct closest as [[p|] d]; unfold closestOf, orientationStep; cbv zeta;
    fold (altitudeAbove g planet).
  - intros (Hin & Hd & Hlow & Hmin).
    destruct (altitudeAbove g planet <? 20) eqn:Hnear; simpl.
    + destruct (altitudeAbove g planet <? d) eqn:Hcloser.
      * split; [apply in_or_app; right; now left|].
        split; [reflexivity|]. split; [exact Hnear|].
        apply Forall_app. split.
        -- eapply Forall_impl; [exact Hmin|]. intros q Hq. simpl in Hq.
           destruct (altitudeAbove g q <? altitudeAbove g planet) eqn:Hqp;
             [|reflexivity].
           now rewrite (FloatFacts.ltb_trans _ _ _ Hqp Hcloser) in Hq.
        -- constructor; [apply FloatArith.ltb_irrefl|constructor].
      * split; [apply in_or_app; now left|].
        split; [exact Hd|]. split; [exact Hlow|].
        apply Forall_app. split; [exact Hmin|].
        constructor; [exact Hcloser|constructor].
    + split; [apply in_or_app; now left|].
      split; [exact Hd|]. split; [exact Hlow|].
      apply Forall_app. split; [exact Hmin|].
      constructor; [|constructor].
      destruct (altitudeAbove g planet <? d) eqn:Hcloser; [|reflexivity].
      now rewrite (FloatFacts.ltb_trans _ _ _ Hcloser Hlow) in Hnear.
  - intros (Hd & Hnone). subst d.
    destruct (altitudeAbove g planet <? 20) eqn:Hnear; simpl.
    + rewrite (FloatFacts.ltb_trans _ 20 JS.Infinity Hnear eq_refl).
      split; [apply in_or_app; right; now left|].
      split; [reflexivity|]. split; [exact Hnear|].
      apply Forall_app. split.
      * eapply Forall_impl; [exact Hnone|]. intros q Hq. unfold within in Hq.
        destruct (altitudeAbove g q <? altitudeAbove g planet) eqn:Hqp;
          [|reflexivity].
        now rewrite (FloatFacts.ltb_trans _ _ _ Hqp Hnear) in Hq.
      * constructor; [apply FloatArith.ltb_irrefl|constructor].
    + split; [reflexivity|].
      apply Forall_app. split; [exact Hnone|].
      constructor; [exact Hnear|constructor].
Qed.

Lemma orientation_scan_closestOf (g : t) (ps : list Planet.t) :
  forall seen closest,
    closestOf g seen closest ->
    closestOf g (seen ++ ps) (fold_left (orientationStep g) ps closest).
Proof.
  induction ps as [|p ps IH]; intros seen closest Hinv; simpl.
  - now rewrite app_nil_r.
  - replace (seen ++ p :: ps) with ((seen ++ [p]) ++ ps)
      by now rewrite <- app_assoc.
    apply IH. now apply orientationStep_closestOf.
Qed.

(** X10: the body [updateRocketOrientation] selects is Earth or one of the
    planets, the rocket is less than 20 above it, and it is no further
    above it than above any other body; no body is selected only if the
    rocket is less than 20 above none of them. *)
Theorem orientationTarget_closest_in_range (g : t) :
  match orientationTarget g with
  | (Some p, d) =>
      In p (bodies g) /\ d = altitudeAbove g p /\ (d <? 20) = true
      /\ Forall (fun q => (altitudeAbove g q <? d) = false) (bodies g)
  | (None, d) =>
      d = JS.Infinity /\ Forall (fun q => within 20 g q = false) (bodies g)
  end.
Proof.
  change (closestOf g (bodies g) (orientationTarget g)).
  rewrite orientationTarget_scan.
  apply (orientation_scan_closestOf g (bodies g) []).
  split; [reflexivity|constructor].
Qed.

Lemma unchanged_is_frame (g : t) :
  g = set_rocket (Rocket.set_quaternion (Rocket.quaternion (rocket g)) (rocket g)) g.
Proof. destruct g as [? ? ? ? ? ? [] ? ? ? ? ?]. reflexivity. Qed.

(** X11: [updateRocketOrientation] leaves the scene as it is when the
    rocket is less than 20 above no body, and when its speed is not below
    15; in every case it writes nothing but the rocket's orientation. *)
Theorem updateRocketOrientation_effect {E : Externals} {R : Rotations} (g : t) :
  (existsb (within 20 g) (bodies g) = false -> updateRocketOrientation g = g)
  /\ ((Rocket.getSpeed (rocket g) <? 15) = false -> updateRocketOrientation g = g)
  /\ updateRocketOrientation g
     = set_rocket
         (Rocket.set_quaternion
            (Rocket.quaternion (rocket (updateRocketOrientation g))) (rocket g)) g.
Proof.
  split; [|split].
  - intros Hfar. unfold updateRocketOrientation.
    assert (Hinv : closestOf g (bodies g) (orientationTarget g)).
    { rewrite orientationTarget_scan.
      apply (orientation_scan_closestOf g (bodies g) []).
      split; [reflexivity|constructor]. }
    destruct (orientationTarget g) as [[p|] d]; [|reflexivity].
    destruct Hinv as (Hin & Hd & Hlow & _). exfalso.
    assert (Hnear : existsb (within 20 g) (bodies g) = true).
    { apply existsb_exists. exists p. split; [exact Hin|].
      unfold within. now rewrite <- Hd. }
    congruence.
  - intros Hfast. unfold updateRocketOrientation.
    destruct (fst (orientationTarget g)); [|reflexivity]. now rewrite Hfast.
  - unfold updateRocketOrientation.
    destruct (fst (orientationTarget g)); [|apply unchanged_is_frame].
    destruct (Rocket.getSpeed (rocket g) <? 15); [reflexivity|].
    apply unchanged_is_frame.
Qed.

(** In the scene hovering over Mars the closest body is Mars, 10 above. *)
Example orientationTarget_over_mars :
  orientationTarget MoreExamples.hoveringOverMars = (Some Examples.mars, 10).
Proof. reflexivity. Qed.

(** X12: at a fixed geometry [updateViewMode] settles at once: applying it
    a second time changes neither the view mode nor the camera speed. *)
Theorem updateViewMode_idempotent (g : t) :
  updateViewMode (updateViewMode g) = updateViewMode g.
Proof.
  assert (Hframe : forall h,
            updateViewMode h
            = set_view (viewMode (updateViewMode h))
                (if bool_decide (viewMode (updateViewMode h) = threeD)
                 then 0.08 else 0.05) h) by reflexivity.
  assert (Hmode : viewMode (updateViewMode (updateViewMode g))
                  = viewMode (updateViewMode g)).
  { rewrite (ViewModeSpec.updateViewMode_by_side (updateViewMode g)).
    assert (Hclosest : closestAltitude (updateViewMode g) = closestAltitude g)
      by reflexivity.
    rewrite Hclosest, (ViewModeSpec.updateViewMode_by_side g).
    now destruct (bandSide (closestAltitude g)). }
  rewrite (Hframe (updateViewMode g)), Hmode. reflexivity.
Qed.

(** X13: [updateCamera] fails with a [TypeError] exactly in the 3D view of
    a finished game, where no case of its [switch] assigns the camera
    offset; in particular right after [onGameOver] in the 3D view. *)
Theorem updateCamera_fails_when_game_over_in_3d {R : Rotations} (g : t) (c : Camera) :
  (updateCamera g c = None <-> viewMode g = threeD /\ gameState g = gameOver)
  /\ (forall message,
        viewMode g = threeD -> updateCamera (onGameOver message g) c = None).
Proof.
  assert (Hiff : forall h,
            updateCamera h c = None <-> viewMode h = threeD /\ gameState h = gameOver).
  { intros h. unfold updateCamera. cbv zeta.
    destruct (viewMode h), (gameState h); simpl; split;
      try discriminate; try (intros [? ?]; discriminate); try reflexivity;
      intros _; split; reflexivity. }
  split; [apply Hiff|].
  intros message Hview. apply Hiff. split; [exact Hview|reflexivity].
Qed.

Lemma hudStep_lowestOf (g : t) (seen : list Planet.t)
    (closest : float * Planet.t) (planet : Planet.t) :
  lowestOf g seen closest ->
  lowestOf g (seen ++ [planet]) (hudStep g closest planet).
Proof.
  destruct closest as [a p]. unfold lowestOf, hudStep. cbv zeta. simpl.
  fold (altitudeAbove g planet). intros (Hin & Ha & Hmin).
  destruct (altitudeAbove g planet <? a) eqn:Hlower; simpl.
  - split; [apply in_or_app; right; now left|]. split; [reflexivity|].
    apply Forall_app. split.
    + eapply Forall_impl; [exact Hmin|]. intros q Hq. simpl in Hq.
      destruct (altitudeAbove g q <? altitudeAbove g planet) eqn:Hqp; [|reflexivity].
      now rewrite (FloatFacts.ltb_trans _ _ _ Hqp Hlower) in Hq.
    + constructor; [apply FloatArith.ltb_irrefl|constructor].
  - split; [apply in_or_app; now left|]. split; [exact Ha|].
    apply Forall_app. split; [exact Hmin|].
    constructor; [exact Hlower|constructor].
Qed.

Lemma hud_scan_lowestOf (g : t) (ps : list Planet.t) :
  forall seen closest,
    lowestOf g seen closest ->
    lowestOf g (seen ++ ps) (fold_left (hudStep g) ps closest).
Proof.
  induction ps as [|p ps IH]; intros seen closest Hinv; simpl.
  - now rewrite app_nil_r.
  - replace (seen ++ p :: ps) with ((seen ++ [p]) ++ ps)
      by now rewrite <- app_assoc.
    apply IH. now apply hudStep_lowestOf.
Qed.

Lemma updateHUD_closest_scan (g : t) :
  updateHUD_closest g
  = fold_left (hudStep g) (planets g) (altitudeAbove g (earth g), earth g).
Proof.
  unfold updateHUD_closest. cbv zeta.
  apply fold_left_pointwise. intros [closestAltitude closestPlanet] planet.
  reflexivity.
Qed.

Lemma fst_hud_scan (g : t) (ps : list Planet.t) :
  forall closest,
    fst (fold_left (hudStep g) ps closest)
    = fold_left
        (fun closestAltitude planet =>
           let altitude := Planet.getAltitude planet (Rocket.position (rocket g)) in
           if altitude <? closestAltitude then altitude else closestAltitude)
        ps (fst closest).
Proof.
  induction ps as [|p ps IH]; intros [a q]; simpl; [reflexivity|].
  rewrite IH. now destruct (_ <? a).
Qed.

(** X20: the body [updateHUD] shows as the closest is Earth or one of the
    planets, the altitude shown is the rocket's altitude above it, and the
    rocket is not lower above any other body; it is the altitude
    [updateViewMode] compares whenever the rocket is not less than 300
    above Earth. *)
Theorem updateHUD_closest_is_lowest (g : t) :
  In (snd (updateHUD_closest g)) (bodies g)
  /\ fst (updateHUD_closest g) = altitudeAbove g (snd (updateHUD_closest g))
  /\ Forall (fun q => (altitudeAbove g q <? fst (updateHUD_closest g)) = false)
            (bodies g)
  /\ (within 300 g (earth g) = false ->
      closestAltitude g = fst (updateHUD_closest g)).
Proof.
  assert (Hlowest : lowestOf g (bodies g) (updateHUD_closest g)).
  { rewrite updateHUD_closest_scan.
    apply (hud_scan_lowestOf g (planets g) [earth g]).
    split; [now left|]. split; [reflexivity|].
    constructor; [apply FloatArith.ltb_irrefl|constructor]. }
  destruct Hlowest as (Hin & Ha & Hmin).
  split; [exact Hin|]. split; [exact Ha|]. split; [exact Hmin|].
  unfold within, altitudeAbove. intros Hfar.
  rewrite updateHUD_closest_scan, fst_hud_scan.
  unfold closestAltitude. cbv zeta.
  change planetaryProximityThreshold with 300. now rewrite Hfar.
Qed.

(** Between Earth and a body close to it the two differ: the view mode is
    decided on the altitude above Earth, the display shows the body. *)
Example closest_altitudes_differ :
  closestAltitude MoreExamples.betweenEarthAndMoon = 250
  /\ updateHUD_closest MoreExamples.betweenEarthAndMoon = (120, MoreExamples.moon).
Proof. split; reflexivity. Qed.

End GameMore.

(** * The single-planet scene: further properties *)

Module PlanetSceneMore.

Import PlanetScene.

Ltac stage_known :=
  simpl;
  repeat first [ rewrite bool_decide_eq_true_2 by reflexivity
               | rewrite bool_decide_eq_false_2 by discriminate ];
  simpl.

(** X14: the first [updateGameState] after a transfer: around Earth the
    rocket has been put down at rest, so the scene stays [landed] whatever
    velocity the rocket arrived with; around any other body the scene is
    [approaching] or [landing]. *)
Theorem first_stage_after_transfer {E : Externals}
    (solarSystemRocket : Rocket.t) (s : t) :
  let s' := transferRocketFromSolarSystem solarSystemRocket s in
  if String.eqb (Planet.name (planet s)) "Earth"
  then gameState s' = landed /\ updateGameState s' = s'
  else gameState (updateGameState s') = approaching
       \/ gameState (updateGameState s') = landing.
Proof.
  cbv zeta. unfold transferRocketFromSolarSystem.
  destruct (String.eqb (Planet.name (planet s)) "Earth") eqn:Hname; simpl;
    rewrite ?Hname.
  - split; [reflexivity|].
    unfold updateGameState. stage_known.
    change (Rocket.getSpeed _) with (THREE.length (mkVector3 0 0 0)).
    reflexivity.
  - unfold updateGameState. stage_known.
    match goal with
    | |- context [if ?c then _ else _] => destruct c
    end; [now right|now left].
Qed.

(** X15: when [isRocketLeavingPlanet] answers yes, and the exit threshold
    is not below 800 (it is 1120), it has written one line to the console,
    [updateLandingGear] retracts the gear, a [launching] scene becomes
    [approaching], and an [approaching] or [landing] scene stays as it
    is. *)
Theorem leaving_planet (s : t) :
  let altitude := Planet.getAltitude (planet s) (Rocket.position (rocket s)) in
  fst (isRocketLeavingPlanet s) = true ->
  (exitThreshold s <? 800) = false ->
  snd (isRocketLeavingPlanet s)
  = console_log (LogLeaving (Planet.name (planet s)) altitude) s
  /\ Rocket.landingGearDeployed (rocket (updateLandingGear s)) = false
  /\ (gameState s = launching -> gameState (updateGameState s) = approaching)
  /\ (gameState s = approaching \/ gameState s = landing -> updateGameState s = s).
Proof.
  intros altitude Hleaving Hexit.
  assert (Hout : (exitThreshold s <? altitude) = true).
  { destruct (exitThreshold s <? altitude) eqn:Hcmp; [reflexivity|].
    revert Hleaving. unfold isRocketLeavingPlanet. cbv zeta. fold altitude.
    rewrite Hcmp. simpl. fold altitude. now rewrite Hcmp. }
  assert (Hhigh : (800 <? altitude) = true).
  { exact (FloatFacts.ltb_false_lt (exitThreshold s) 800 altitude
             (FloatFacts.ltb_not_nan_l _ _ Hout) eq_refl Hexit Hout). }
  pose proof (FloatFacts.ltb_antisym _ _ Hhigh) as Hnotlow.
  split; [|split; [|split]].
  - unfold isRocketLeavingPlanet. cbv zeta. fold altitude. now rewrite Hout.
  - unfold updateLandingGear. fold altitude. now rewrite Hnotlow.
  - intros Hst. unfold updateGameState. fold altitude. rewrite Hst, Hhigh.
    stage_known. reflexivity.
  - intros Hst. unfold updateGameState. fold altitude. rewrite Hnotlow.
    assert (Hfar : (altitude <? 40) = false).
    { destruct (altitude <? 40) eqn:Hnear; [|reflexivity].
      now rewrite (FloatFacts.ltb_trans _ 40 800 Hnear eq_refl) in Hnotlow. }
    rewrite Hfar.
    destruct Hst as [-> | ->]; stage_known; rewrite ?andb_false_r; reflexivity.
Qed.

Lemma leaving_planet_witness :
  fst (isRocketLeavingPlanet MoreExamples.leavingMars) = true
  /\ (exitThreshold MoreExamples.leavingMars <? 800) = false
  /\ console (snd (isRocketLeavingPlanet MoreExamples.leavingMars))
     = [LogLeaving "Mars" 1140]
  /\ gameState (updateGameState MoreExamples.leavingMars) = approaching.
Proof.
  split; [reflexivity|]. split; [reflexivity|].
  destruct (leaving_planet MoreExamples.leavingMars eq_refl eq_refl)
    as (Hlog & _ & Hstage & _).
  split; [now rewrite Hlog | exact (Hstage eq_refl)].
Defined.

(** The stage [updateGameState] moves to, given the altitude and speed. *)
Lemma updateGameState_next (s : t) :
  let altitude := Planet.getAltitude (planet s) (Rocket.position (rocket s)) in
  let speed := Rocket.getSpeed (rocket s) in
  gameState (updateGameState s)
  = match gameState s with
    | approaching => if altitude <? 800 then landing else approaching
    | landing => if (speed <? 1) && (altitude <? 40) then landed else landing
    | landed => if 5 <? speed then launching else landed
    | launching => if 800 <? altitude then approaching else launching
    end.
Proof.
  cbv zeta. unfold updateGameState.
  destruct (gameState s) eqn:Hst; stage_known;
    match goal with
    | |- context [if ?c then _ else _] => destruct c
    end; simpl; congruence.
Qed.

(** X16: at a fixed altitude and speed [updateGameState] comes to rest
    after at most two calls, so the cycle is never run through on the
    spot; and two calls can be needed. *)
Theorem updateGameState_settles_in_two (s : t) :
  updateGameState (updateGameState (updateGameState s))
  = updateGameState (updateGameState s)
  /\ updateGameState (updateGameState MoreExamples.touchingDown)
     <> updateGameState MoreExamples.touchingDown.
Proof.
  split; [|vm_compute; discriminate].
  assert (Hframe : forall u, updateGameState u
                             = set_gameState (gameState (updateGameState u)) u)
    by exact PlanetSceneSpec.updateGameState_frame.
  assert (Hstage : gameState (updateGameState (updateGameState (updateGameState s)))
                   = gameState (updateGameState (updateGameState s))).
  { rewrite (updateGameState_next (updateGameState (updateGameState s))).
    rewrite (updateGameState_next (updateGameState s)).
    rewrite (updateGameState_next s).
    assert (Ha1 : Planet.getAltitude (planet (updateGameState s))
                    (Rocket.position (rocket (updateGameState s)))
                  = Planet.getAltitude (planet s) (Rocket.position (rocket s))).
    { now rewrite (Hframe s). }
    assert (Hs1 : Rocket.getSpeed (rocket (updateGameState s))
                  = Rocket.getSpeed (rocket s)).
    { now rewrite (Hframe s). }
    assert (Ha2 : Planet.getAltitude (planet (updateGameState (updateGameState s)))
                    (Rocket.position (rocket (updateGameState (updateGameState s))))
                  = Planet.getAltitude (planet s) (Rocket.position (rocket s))).
    { now rewrite (Hframe (updateGameState s)). }
    assert (Hs2 : Rocket.getSpeed (rocket (updateGameState (updateGameState s)))
                  = Rocket.getSpeed (rocket s)).
    { now rewrite (Hframe (updateGameState s)). }
    cbv zeta. rewrite Ha1, Hs1, Ha2, Hs2.
    set (altitude := Planet.getAltitude (planet s) (Rocket.position (rocket s))).
    set (speed := Rocket.getSpeed (rocket s)).
    destruct (altitude <? 800) eqn:Hlow, (800 <? altitude) eqn:Hhigh;
      try (exfalso; exact (FloatArith.ltb_between_absurd altitude 800 800
                             eq_refl Hlow Hhigh));
      destruct (speed <? 1) eqn:Hslow, (5 <? speed) eqn:Hfast;
      try (exfalso; exact (FloatArith.ltb_between_absurd speed 1 5
                             eq_refl Hslow Hfast));
      destruct (altitude <? 40) eqn:Hnear;
      try (exfalso; exact (FloatArith.ltb_between_absurd altitude 40 800
                             eq_refl Hnear Hhigh));
      destruct (gameState s); simpl;
      rewrite ?Hlow, ?Hhigh, ?Hslow, ?Hfast, ?Hnear; simpl;
      rewrite ?Hlow, ?Hhigh, ?Hslow, ?Hfast, ?Hnear; simpl;
      rewrite ?Hlow, ?Hhigh, ?Hslow, ?Hfast, ?Hnear; reflexivity. }
  rewrite (Hframe (updateGameState (updateGameState s))), Hstage.
  now destruct (updateGameState (updateGameState s)).
Qed.

(** X17: the RCS command of the single-planet scene: opposed keys cancel;
    with no key left and either no deceleration or a rocket at rest there
    is no thrust; with one axis engaged and no deceleration the direction
    is exactly the unit vector of that axis. *)
Theorem rcsCommand_of_keys (movement : Input.Movement) (r : Rocket.t) :
  rcsCommand movement r = rcsCommand (releaseOpposed movement) r
  /\ (noNetDirection movement = true ->
      Input.decelerate movement = false \/ Rocket.velocity r = mkVector3 0 0 0 ->
      rcsCommand movement r = None)
  /\ (singleAxis movement = true -> Input.decelerate movement = false ->
      rcsCommand movement r = Some (netDirection movement)).
Proof.
  destruct movement as [forward backward left right boost decelerate].
  split; [|split].
  - destruct forward, backward, left, right; reflexivity.
  - simpl. intros Hnone [Hbrake|Hrest].
    + subst decelerate.
      destruct forward, backward, left, right; try discriminate; reflexivity.
    + unfold rcsCommand. simpl. rewrite Hrest.
      destruct forward, backward, left, right, decelerate; try discriminate;
        reflexivity.
  - simpl. intros Hone Hbrake. subst decelerate.
    destruct forward, backward, left, right; try discriminate; reflexivity.
Qed.

(** X18: the rotation controls of the single-planet scene: opposed keys
    cancel, with no key left the rocket is not touched, and nothing but
    the angular velocity is ever written. *)
Theorem applyRotationInput_of_keys (movement : Input.Movement) (deltaTime : float)
    (r : Rocket.t) :
  applyRotationInput movement deltaTime r
  = applyRotationInput (releaseOpposed movement) deltaTime r
  /\ (noNetDirection movement = true -> applyRotationInput movement deltaTime r = r)
  /\ applyRotationInput movement deltaTime r
     = Rocket.set_angularVelocity
         (Rocket.angularVelocity (applyRotationInput movement deltaTime r)) r.
Proof.
  destruct movement as [forward backward left right boost decelerate].
  split; [|split].
  - destruct forward, backward, left, right; reflexivity.
  - simpl. intros Hnone.
    destruct forward, backward, left, right; try discriminate; reflexivity.
  - destruct r. destruct forward, backward, left, right; reflexivity.
Qed.

(** X19: the RCS command of the solar-system scene: opposed keys cancel;
    with no key left and no deceleration there is no thrust; above speed
    0.5, with one axis engaged and no deceleration, the direction is the
    unit vector of that axis, the same as in the single-planet scene
    although the two scenes weigh the keys differently. *)
Theorem game_rcsCommand_of_keys (movement : Input.Movement) (r : Rocket.t) :
  Game.rcsCommand movement r = Game.rcsCommand (releaseOpposed movement) r
  /\ (noNetDirection movement = true -> Input.decelerate movement = false ->
      Game.rcsCommand movement r = None)
  /\ ((0.5 <? Rocket.getSpeed r) = true ->
      singleAxis movement = true -> Input.decelerate movement = false ->
      Game.rcsCommand movement r = Some (netDirection movement)
      /\ Game.rcsCommand movement r = rcsCommand movement r).
Proof.
  destruct movement as [forward backward left right boost decelerate].
  split; [|split].
  - unfold Game.rcsCommand. destruct (0.5 <? Rocket.getSpeed r); [|reflexivity].
    destruct forward, backward, left, right; reflexivity.
  - simpl. intros Hnone Hbrake. subst decelerate.
    unfold Game.rcsCommand. destruct (0.5 <? Rocket.getSpeed r); [|reflexivity].
    destruct forward, backward, left, right; try discriminate; reflexivity.
  - simpl. intros Hspeed Hone Hbrake. subst decelerate.
    unfold Game.rcsCommand. rewrite Hspeed.
    destruct forward, backward, left, right; try discriminate; split; reflexivity.
Qed.

End PlanetSceneMore.
